(** * Fireboat: the marine forecast pipeline of [src/App.tsx]

    A shallow embedding of [fetchForecast] (the shift window, the tide
    normaliser, the period slicer and aggregator, the derived estimators and
    the report assembly with its failure policy), and the properties the
    specification states about them.

    Conventions of the model.
    - A JavaScript number is a [number]: [NaN], the two infinities, or a
      finite value held as an exact rational.  Binary64 rounding of finite
      values is not modelled: the properties below are stated so that they
      hold of the rounded arithmetic as well, that is of what is printed,
      compared or looked up, and of a quotient only up to a stated
      tolerance.
    - A [Date] is a local civil time (day number and time of day).  The
      host's time zone is a [Zone], the offset from UTC in force at each
      local time; [getTime] is taken in a zone.
    - A payload is what the parsed body has: a section or an array that is
      missing is [None], and reading a property of it throws.
    - [fetch] is the environment: its outcome for each of the three requests
      is an input of [fetchForecast].  The debug trace ([addLog]) and
      [lastUpdate] are display state and are left out. *)

From Stdlib Require Import ZArith QArith Qround Qabs Qcanon List String Ascii Bool Lia Lqa.
From Stdlib Require Import Decimal DecimalString DecimalN DecimalFacts.
Import ListNotations.

Local Open Scope string_scope.
Local Open Scope Z_scope.

(** ** The host: numbers, strings, arrays and dates of JavaScript *)

Module JS.

Inductive number : Type :=
| NaN
| PosInf
| NegInf
| Num (q : Q).

Definition of_Z (z : Z) : number := Num (inject_Z z).

Definition is_zero (q : Q) : bool := Qnum q =? 0.
Definition is_neg (q : Q) : bool := Qnum q <? 0.

(** [a + b] *)
Definition add (a b : number) : number :=
  match a, b with
  | NaN, _ | _, NaN => NaN
  | PosInf, NegInf | NegInf, PosInf => NaN
  | PosInf, _ | _, PosInf => PosInf
  | NegInf, _ | _, NegInf => NegInf
  | Num x, Num y => Num (x + y)
  end.

(** [a / b] (the sign of a zero divisor is not tracked: zero is positive) *)
Definition div (a b : number) : number :=
  match a, b with
  | NaN, _ | _, NaN => NaN
  | (PosInf | NegInf), (PosInf | NegInf) => NaN
  | PosInf, Num y => if is_neg y then NegInf else PosInf
  | NegInf, Num y => if is_neg y then PosInf else NegInf
  | Num _, (PosInf | NegInf) => Num 0
  | Num x, Num y =>
      if is_zero y then
        (if is_zero x then NaN else if is_neg x then NegInf else PosInf)
      else Num (x / y)
  end.

(** [a < b] *)
Definition ltb (a b : number) : bool :=
  match a, b with
  | NaN, _ | _, NaN => false
  | _, NegInf => false
  | NegInf, _ => true
  | PosInf, _ => false
  | Num _, PosInf => true
  | Num x, Num y => match x ?= y with Lt => true | _ => false end
  end%Q.

Definition min2 (a b : number) : number :=
  match a, b with
  | NaN, _ | _, NaN => NaN
  | _, _ => if ltb b a then b else a
  end.

Definition max2 (a b : number) : number :=
  match a, b with
  | NaN, _ | _, NaN => NaN
  | _, _ => if ltb a b then b else a
  end.

(** [Math.min(...l)] and [Math.max(...l)]: the empty spread gives the
    neutral infinity, and a [NaN] anywhere gives [NaN]. *)
Definition Math_min (l : list number) : number := fold_left min2 l PosInf.
Definition Math_max (l : list number) : number := fold_left max2 l NegInf.

(** [Math.round]: the nearest integer, a tie going up. *)
Definition round_half_up (q : Q) : Z := Qfloor (q + (1 # 2)).

Definition Math_round (a : number) : number :=
  match a with
  | Num q => of_Z (round_half_up q)
  | _ => a
  end.

(** [l.reduce((a, b) => a + b, 0)] *)
Definition sum (l : list number) : number := fold_left add l (of_Z 0).

(** [l.length] as a number *)
Definition length_of {A} (l : list A) : number := of_Z (Z.of_nat (List.length l)).

(** [l.slice(s, e)], negative bounds counting from the end. *)
Definition slice_bound (len i : Z) : Z :=
  if i <? 0 then Z.max (len + i) 0 else Z.min i len.

Definition slice {A} (l : list A) (s e : Z) : list A :=
  let len := Z.of_nat (List.length l) in
  let k := slice_bound len s in
  let final := slice_bound len e in
  firstn (Z.to_nat (final - k)) (skipn (Z.to_nat k) l).

(** [l[i]] for an integer index: [None] is [undefined]. *)
Definition index {A} (l : list A) (i : Z) : option A :=
  if i <? 0 then None else nth_error l (Z.to_nat i).

(** The integer a number is, when it is one: the array index or property
    key it stands for. *)
Definition as_integer (x : number) : option Z :=
  match x with
  | Num q =>
      let r := Qred q in
      if (Qden r =? 1)%positive then Some (Qnum r) else None
  | _ => None
  end.

(** [l[x]] for a number [x]. *)
Definition index_num {A} (l : list A) (x : number) : option A :=
  match as_integer x with
  | Some i => index l i
  | None => None
  end.

Definition truncate (q : Q) : Z :=
  if is_neg q then Qceiling q else Qfloor q.

(** [a % b]: the remainder has the sign of the dividend. *)
Definition rem (a b : number) : number :=
  match a, b with
  | Num x, Num y =>
      if is_zero y then NaN else Num (x - y * inject_Z (truncate (x / y)))
  | Num x, (PosInf | NegInf) => Num x
  | _, _ => NaN
  end.

(** *** Numbers to strings *)

Definition N_to_string (n : N) : string := NilZero.string_of_uint (N.to_uint n).

Fixpoint repeat0 (k : nat) : string :=
  match k with O => "" | S k' => String "0" (repeat0 k') end.

(** The last [k] characters of [s], and what precedes them. *)
Definition split_last (k : nat) (s : string) : string * string :=
  let n := String.length s in
  (substring 0 (n - k) s, substring (n - k) k s).

Fixpoint strip_trailing0 (fuel : nat) (s : string) : string :=
  match fuel with
  | O => s
  | S f =>
      match split_last 1 s with
      | (front, "0") => strip_trailing0 f front
      | _ => s
      end
  end.

(** Exponent notation of an integer of magnitude at least 1e21. *)
Definition exponential (n : N) : string :=
  let ds := N_to_string n in
  let e := Nat.pred (String.length ds) in
  let rest := strip_trailing0 e (substring 1 e ds) in
  substring 0 1 ds ++ (if String.eqb rest "" then "" else "." ++ rest)
    ++ "e+" ++ N_to_string (N.of_nat e).

(** Fraction digits of [r / d] by long division, at most [fuel] of them. *)
Fixpoint frac_digits (fuel : nat) (r d : N) : string :=
  match fuel with
  | O => ""
  | S f =>
      if (r =? 0)%N then ""
      else N_to_string ((10 * r) / d) ++ frac_digits f ((10 * r) mod d) d
  end.

Definition ten21 : Z := 10 ^ 21.

(** [String(x)], as in a template literal.  A finite value prints its
    decimal expansion, cut after 17 fraction digits when it does not end.
    (The host prints the shortest digits that read back as the same
    binary64 value, and exponent notation below 1e-6; on the integers
    below 2^53, which is what [Math.round] and a status hand to it, the two
    agree.) *)
Definition Number_toString (x : number) : string :=
  match x with
  | NaN => "NaN"
  | PosInf => "Infinity"
  | NegInf => "-Infinity"
  | Num q =>
      let a := Qabs q in
      let i := Z.to_N (Qfloor a) in
      let d := Npos (Qden a) in
      let r := (Z.to_N (Qnum a) mod d)%N in
      let body :=
        if ten21 <=? Qfloor a then exponential i
        else N_to_string i ++
             (if (r =? 0)%N then "" else "." ++ frac_digits 17 r d) in
      if is_neg q then "-" ++ body else body
  end.

(** [x.toFixed(f)]: [f] digits after the point, the nearest such decimal,
    a tie going away from zero; magnitudes from 1e21 print as [String(x)]. *)
Definition toFixed (f : nat) (x : number) : string :=
  match x with
  | Num q =>
      let a := Qabs q in
      if ten21 <=? Qfloor a then Number_toString x
      else
        let n := Z.to_N (Qfloor (a * inject_Z (10 ^ Z.of_nat f) + (1 # 2))) in
        let ds := N_to_string n in
        let ds := repeat0 (S f - String.length ds) ++ ds in
        let (ip, fp) := split_last f ds in
        (if is_neg q then "-" else "")
          ++ ip ++ (if Nat.eqb f 0 then "" else "." ++ fp)
  | _ => Number_toString x
  end.

(** *** Strings to numbers *)

Definition is_digit (c : ascii) : bool :=
  ((48 <=? nat_of_ascii c) && (nat_of_ascii c <=? 57))%nat.

Definition is_space (c : ascii) : bool :=
  let n := nat_of_ascii c in
  (((9 <=? n) && (n <=? 13)) || (n =? 32))%nat.

Fixpoint span_digits (s : string) : string * string :=
  match s with
  | String c s' =>
      if is_digit c then let (d, r) := span_digits s' in (String c d, r)
      else ("", s)
  | EmptyString => ("", "")
  end.

Fixpoint trim_start (s : string) : string :=
  match s with
  | String c s' => if is_space c then trim_start s' else s
  | EmptyString => ""
  end.

Definition digits_value (ds : string) : N :=
  match NilEmpty.uint_of_string ds with
  | Some u => N.of_uint u
  | None => 0%N
  end.

Definition pow10 (e : Z) : Q := Qpower (10 # 1) e.

(** The value of an exponent part [e±ddd] at the head of [s], 0 without one. *)
Definition exponent_part (s : string) : Z :=
  match s with
  | String c r =>
      if Ascii.eqb c "e" || Ascii.eqb c "E" then
        let (sgn, r') :=
          match r with
          | String "+" r' => (1, r')
          | String "-" r' => (-1, r')
          | _ => (1, r)
          end in
        let (ds, _) := span_digits r' in
        if String.eqb ds "" then 0 else sgn * Z.of_N (digits_value ds)
      else 0
  | EmptyString => 0
  end.

Definition parse_unsigned (s : string) : number :=
  if prefix "Infinity" s then PosInf
  else
    let (ip, r) := span_digits s in
    let (fp, r') :=
      match r with
      | String "." r1 => span_digits r1
      | _ => ("", r)
      end in
    if String.eqb ip "" && String.eqb fp "" then NaN
    else
      let m := (inject_Z (Z.of_N (digits_value ip))
                + inject_Z (Z.of_N (digits_value fp))
                  * pow10 (- Z.of_nat (String.length fp)))%Q in
      Num (m * pow10 (exponent_part r')).

Definition negate (x : number) : number :=
  match x with
  | NaN => NaN
  | PosInf => NegInf
  | NegInf => PosInf
  | Num q => Num (- q)
  end.

(** [parseFloat(s)]: the longest decimal literal at the head of the trimmed
    string, [NaN] when there is none.  The number is the value of the
    literal itself, where the host takes the binary64 value nearest to it. *)
Definition parseFloat (s : string) : number :=
  match trim_start s with
  | String "-" r => negate (parse_unsigned r)
  | String "+" r => parse_unsigned r
  | t => parse_unsigned t
  end.

(** *** Dates *)

(** A valid [Date], in local civil time: the day counted from 1970-01-01
    and the time of day. *)
Record DateTime : Type := mkDateTime
  { day : Z; hours : Z; minutes : Z; seconds : Z; millis : Z }.

Definition getHours (d : DateTime) : Z := hours d.

(** [d.setHours(h, m, s, ms)] *)
Definition setHours (d : DateTime) (h m s ms : Z) : DateTime :=
  mkDateTime (day d) h m s ms.

(** [d.setDate(d.getDate() + k)]: [setDate] normalises through the day
    count, so this is the calendar day [k] days away, at the same time. *)
Definition addDays (d : DateTime) (k : Z) : DateTime :=
  mkDateTime (day d + k) (hours d) (minutes d) (seconds d) (millis d).

(** The reading of the local wall clock in milliseconds: the calendar day
    and the time of day, with no regard to the zone. *)
Definition wallClock (d : DateTime) : Z :=
  (((day d * 24 + hours d) * 60 + minutes d) * 60 + seconds d) * 1000
  + millis d.

(** The host's time zone: the offset of local time from UTC, in
    milliseconds, that is in force at a local date and time. *)
Record Zone : Type := mkZone { offset : DateTime -> Z }.

(** [d.getTime()]: the milliseconds since the epoch. *)
Definition getTime (tz : Zone) (d : DateTime) : Z :=
  wallClock d - offset tz d.

Definition days_from_civil (y m d : Z) : Z :=
  let y' := if m <=? 2 then y - 1 else y in
  let era := y' / 400 in
  let yoe := y' - era * 400 in
  let doy := (153 * (if 2 <? m then m - 3 else m + 9) + 2) / 5 + d - 1 in
  let doe := yoe * 365 + yoe / 4 - yoe / 100 + doy in
  era * 146097 + doe - 719468.

(** Year, month (1-12) and day of the month of a day number. *)
Definition civil_from_days (z : Z) : Z * Z * Z :=
  let z := z + 719468 in
  let era := z / 146097 in
  let doe := z - era * 146097 in
  let yoe := (doe - doe / 1460 + doe / 36524 - doe / 146096) / 365 in
  let doy := doe - (365 * yoe + yoe / 4 - yoe / 100) in
  let mp := (5 * doy + 2) / 153 in
  let d := doy - (153 * mp + 2) / 5 + 1 in
  let m := if mp <? 10 then mp + 3 else mp - 9 in
  (yoe + era * 400 + (if m <=? 2 then 1 else 0), m, d).

(** The first Sunday of month [m] of year [y]; day 0 is a Thursday. *)
Definition first_sunday (y m : Z) : Z :=
  let d := days_from_civil y m 1 in
  d + (7 - (d + 4) mod 7) mod 7.

(** America/Los_Angeles, the zone of the station, under the rule in force
    since 2007: UTC-7 from 02:00 on the second Sunday of March to 02:00 on
    the first Sunday of November, UTC-8 for the rest of the year. *)
Definition losAngeles : Zone :=
  mkZone (fun d =>
    let '(y, _, _) := civil_from_days (day d) in
    let from := wallClock (mkDateTime (first_sunday y 3 + 7) 2 0 0 0) in
    let to := wallClock (mkDateTime (first_sunday y 11) 2 0 0 0) in
    if (from <=? wallClock d) && (wallClock d <? to)
    then - (7 * 60 * 60 * 1000) else - (8 * 60 * 60 * 1000)).

Definition all_digits (s : string) : bool :=
  match span_digits s with
  | (_, "") => true
  | _ => false
  end.

Definition field (s : string) (start len : nat) : option Z :=
  let f := substring start len s in
  if all_digits f && (String.length f =? len)%nat
  then Some (Z.of_N (digits_value f)) else None.

(** [new Date(s)] for the timestamps of the two feeds, [YYYY-MM-DD HH:MM]
    and [YYYY-MM-DDTHH:MM], with or without [:SS], read as local time as V8
    reads them: a day of the month up to 31 is accepted and runs into the
    next month where the month is shorter.  [None] is an Invalid Date; the
    empty string is one on every host, what a host makes of the other
    strings refused here is its own choice. *)
Definition Date_parse (s : string) : option DateTime :=
  let sep := substring 10 1 s in
  let short := (String.length s =? 16)%nat in
  if (short
      || (String.length s =? 19)%nat && String.eqb (substring 16 1 s) ":")
     && String.eqb (substring 4 1 s) "-" && String.eqb (substring 7 1 s) "-"
     && (String.eqb sep " " || String.eqb sep "T")
     && String.eqb (substring 13 1 s) ":"
  then
    match field s 0 4, field s 5 2, field s 8 2, field s 11 2, field s 14 2,
          (if short then Some 0 else field s 17 2) with
    | Some y, Some m, Some d, Some h, Some mi, Some sec =>
        if (1 <=? m) && (m <=? 12) && (1 <=? d) && (d <=? 31)
           && (h <=? 23) && (mi <=? 59) && (sec <=? 59)
        then Some (mkDateTime (days_from_civil y m d) h mi sec 0)
        else None
    | _, _, _, _, _, _ => None
    end
  else None.

Definition pad2 (n : Z) : string :=
  let s := N_to_string (Z.to_N n) in
  if (String.length s <? 2)%nat then "0" ++ s else s.

(** [d.toLocaleTimeString('en-US', { hour: '2-digit', minute: '2-digit',
    hour12: false })], with the hours counted 00 to 23. *)
Definition toLocaleTimeString (d : option DateTime) : string :=
  match d with
  | Some t => pad2 (hours t) ++ ":" ++ pad2 (minutes t)
  | None => "Invalid Date"
  end.

Definition weekday_name (z : Z) : string :=
  nth (Z.to_nat ((z + 4) mod 7))
    ["Sunday"; "Monday"; "Tuesday"; "Wednesday"; "Thursday"; "Friday";
     "Saturday"] "".

Definition month_name (m : Z) : string :=
  nth (Z.to_nat (m - 1))
    ["Jan"; "Feb"; "Mar"; "Apr"; "May"; "Jun"; "Jul"; "Aug"; "Sep"; "Oct";
     "Nov"; "Dec"] "".

(** [d.toLocaleString('en-US', { weekday: 'long', month: 'short',
    day: 'numeric', hour: '2-digit', minute: '2-digit' })], in the layout
    [Sunday, Nov 1, 08:00 AM] (the text between the date and the time
    varies with the host's locale data). *)
Definition toLocaleString (d : DateTime) : string :=
  let '(_, m, dom) := civil_from_days (day d) in
  let h12 := if hours d mod 12 =? 0 then 12 else hours d mod 12 in
  weekday_name (day d) ++ ", " ++ month_name m ++ " "
    ++ N_to_string (Z.to_N dom) ++ ", " ++ pad2 h12 ++ ":"
    ++ pad2 (minutes d) ++ (if hours d <? 12 then " AM" else " PM").

(** [d.getFullYear()], [d.getMonth()] (counted from 0) and [d.getDate()] *)
Definition getFullYear (d : DateTime) : Z :=
  let '(y, _, _) := civil_from_days (day d) in y.

Definition getMonth (d : DateTime) : Z :=
  let '(_, m, _) := civil_from_days (day d) in m - 1.

Definition getDate (d : DateTime) : Z :=
  let '(_, _, dom) := civil_from_days (day d) in dom.

(** [s.padStart(n, '0')] *)
Definition padStart0 (n : nat) (s : string) : string :=
  repeat0 (n - String.length s) ++ s.

(** A string in a condition: the empty string counts as false. *)
Definition truthy (s : string) : bool := negb (String.eqb s "").

End JS.

(** ** The payloads *)

(** One entry of the NOAA [predictions] list. *)
Module Prediction.
Record T : Type := mk { t : string; type : string; v : string }.
End Prediction.

(** One entry of the NOAA water temperature [data] list. *)
Module Reading.
Record T : Type := mk { v : string }.
End Reading.

(** The arrays of the [hourly] section. *)
Module Hourly.
Record T : Type := mk
  { time : list string;
    temperature_2m : list JS.number;
    precipitation_probability : list JS.number;
    weather_code : list JS.number;
    visibility : list JS.number;
    wind_speed_10m : list JS.number;
    wind_direction_10m : list JS.number;
    wind_gusts_10m : list JS.number }.
End Hourly.

Module Current.
Record T : Type := mk
  { temperature_2m : JS.number;
    relative_humidity_2m : JS.number;
    apparent_temperature : JS.number;
    weather_code : JS.number;
    pressure_msl : JS.number;
    wind_speed_10m : JS.number;
    wind_direction_10m : JS.number;
    wind_gusts_10m : JS.number }.
End Current.

(** The [hourly] section as it arrives: an array that the section lacks is
    [None], the [undefined] that reading the property gives. *)
Module HourlySection.
Record T : Type := mk
  { time : option (list string);
    temperature_2m : option (list JS.number);
    precipitation_probability : option (list JS.number);
    weather_code : option (list JS.number);
    visibility : option (list JS.number);
    wind_speed_10m : option (list JS.number);
    wind_direction_10m : option (list JS.number);
    wind_gusts_10m : option (list JS.number) }.

(** A section that has every array. *)
Definition complete (h : Hourly.T) : T :=
  mk (Some (Hourly.time h)) (Some (Hourly.temperature_2m h))
    (Some (Hourly.precipitation_probability h)) (Some (Hourly.weather_code h))
    (Some (Hourly.visibility h)) (Some (Hourly.wind_speed_10m h))
    (Some (Hourly.wind_direction_10m h)) (Some (Hourly.wind_gusts_10m h)).
End HourlySection.

(** The [daily] section as it arrives. *)
Module Daily.
Record T : Type := mk
  { sunrise : option (list string); sunset : option (list string) }.
End Daily.

(** The parsed bodies.  A section that the body lacks is [None]: reading a
    property of it throws a [TypeError]. *)
Record WeatherData : Type := mkWeatherData
  { current : option Current.T;
    hourly : option HourlySection.T;
    daily : option Daily.T }.

Record TideData : Type := mkTideData
  { predictions : option (list Prediction.T) }.

Record WaterTempData : Type := mkWaterTempData
  { data : option (list Reading.T) }.

(** What [await fetch(url)] followed by [await response.json()] gives:
    the request is rejected, or a response arrives with a status and a body
    that parses or makes [json()] reject. *)
Inductive Fetched (A : Type) : Type :=
| Rejected (message : string)
| Responded (status : Z) (json : string + A).
Arguments Rejected {A} message.
Arguments Responded {A} status json.

Definition ok (status : Z) : bool := (200 <=? status) && (status <=? 299).

(** ** The records of the report *)

Module Tide.
Record T : Type := mk { time : string; type : string; height : string }.
End Tide.

Module CurrentConditions.
Record T : Type := mk
  { temp : string;
    feelsLike : string;
    conditions : string;
    windSpeed : string;
    windDir : option string;
    gusts : string;
    pressure : string;
    humidity : string }.
End CurrentConditions.

Module PeriodForecast.
Record T : Type := mk
  { period : string;
    temp : string;
    conditions : string;
    wind : string;
    visibility : string;
    precipitation : string;
    waves : string }.
End PeriodForecast.

Module MarineData.
Record T : Type := mk
  { waterTemp : string;
    currentSpeed : string;
    currentDir : string;
    sunrise : string;
    sunset : string }.
End MarineData.

Module Conditions.
Record T : Type := mk
  { current : CurrentConditions.T;
    forecast : list PeriodForecast.T }.
End Conditions.

Module ForecastData.
Record T : Type := mk
  { location : string;
    shiftStart : string;
    shiftEnd : string;
    tides : list Tide.T;
    conditions : Conditions.T;
    marine : MarineData.T }.
End ForecastData.

(** ** Exceptions *)

(** A computation that returns or throws an [Error] with a message. *)
Inductive result (A : Type) : Type :=
| Ok (a : A)
| Throw (message : string).
Arguments Ok {A} a.
Arguments Throw {A} message.

Definition bind {A B} (r : result A) (k : A -> result B) : result B :=
  match r with
  | Ok a => k a
  | Throw m => Throw m
  end.

Notation "x <- r ;; k" := (bind r (fun x => k))
  (at level 61, r at next level, right associativity).

(** [try { r } catch (e) { d }] *)
Definition try_catch {A} (r : result A) (d : A) : A :=
  match r with
  | Ok a => a
  | Throw _ => d
  end.

(** [await response.json()] after [await fetch(url)], with no look at the
    status. *)
Definition fetch_json {A} (f : Fetched A) : result A :=
  match f with
  | Rejected m => Throw m
  | Responded _ (inl m) => Throw m
  | Responded _ (inr a) => Ok a
  end.

(** [l.map(f)] with a callback that may throw: the first exception ends
    the loop. *)
Fixpoint mapM {A B} (f : A -> result B) (l : list A) : result (list B) :=
  match l with
  | [] => Ok []
  | a :: l' => b <- f a ;; bs <- mapM f l' ;; Ok (b :: bs)
  end.

(** The message of the [TypeError] for reading [prop] of [undefined], in
    the wording of V8. *)
Definition TypeError (prop : string) : string :=
  "Cannot read properties of undefined (reading '" ++ prop ++ "')".

(** Reading property [prop] of a section or an array that may be missing. *)
Definition section {A} (o : option A) (prop : string) : result A :=
  match o with
  | Some a => Ok a
  | None => Throw (TypeError prop)
  end.

(** ** The application *)

Module App.

Import JS.

(** *** Shift window (lines 75-83) *)

Definition shiftStart (now : DateTime) : DateTime :=
  let shiftStart := setHours now 8 0 0 0 in
  if getHours now <? 8 then addDays shiftStart (-1) else shiftStart.

Definition shiftEnd (now : DateTime) : DateTime :=
  let shiftEnd := addDays (shiftStart now) 1 in
  setHours shiftEnd 8 0 0 0.

(** *** Weather request (lines 98-102) *)

Definition weatherData (weather : Fetched WeatherData) : result WeatherData :=
  match weather with
  | Rejected m => Throw m
  | Responded status body =>
      if negb (ok status) then
        Throw ("Weather API returned " ++ Number_toString (of_Z status))
      else
        match body with
        | inl m => Throw m
        | inr w => Ok w
        end
  end.

(** *** Tides (lines 106-125) *)

Definition formatTide (tide : Prediction.T) : Tide.T :=
  let time := Date_parse (Prediction.t tide) in
  {| Tide.time := toLocaleTimeString time;
     Tide.type := if String.eqb (Prediction.type tide) "H" then "High" else "Low";
     Tide.height := toFixed 1 (parseFloat (Prediction.v tide)) ++ " ft" |}.

Definition tides (tide : Fetched TideData) : list Tide.T :=
  try_catch
    (tideData <- fetch_json tide ;;
     match predictions tideData with
     | Some ps => Ok (map formatTide (slice ps 0 4))
     | None => Ok []
     end)
    [].

(** *** Water temperature (lines 128-139) *)

Definition waterTemp (water : Fetched WaterTempData) : string :=
  try_catch
    (waterTempData <- fetch_json water ;;
     match data waterTempData with
     | Some (r :: _) =>
         Ok (Number_toString (Math_round (parseFloat (Reading.v r))) ++ "°F")
     | _ => Ok "52°F"
     end)
    "52°F".

(** *** Conversions (lines 141-159) *)

Definition codes : list (Z * string) :=
  [ (0, "Clear"); (1, "Mainly Clear"); (2, "Partly Cloudy"); (3, "Overcast");
    (45, "Foggy"); (48, "Foggy"); (51, "Light Drizzle"); (53, "Drizzle");
    (55, "Heavy Drizzle"); (61, "Light Rain"); (63, "Rain"); (65, "Heavy Rain");
    (71, "Light Snow"); (73, "Snow"); (75, "Heavy Snow"); (80, "Light Showers");
    (81, "Showers"); (82, "Heavy Showers"); (95, "Thunderstorm") ].

Fixpoint lookup (k : Z) (table : list (Z * string)) : option string :=
  match table with
  | [] => None
  | (k', label) :: rest => if k =? k' then Some label else lookup k rest
  end.

(** [codes[code] || 'Unknown']; every label of the table is non-empty. *)
Definition getWeatherDescription (code : number) : string :=
  match as_integer code with
  | Some k =>
      match lookup k codes with
      | Some label => label
      | None => "Unknown"
      end
  | None => "Unknown"
  end.

Definition dirs : list string :=
  [ "N"; "NNE"; "NE"; "ENE"; "E"; "ESE"; "SE"; "SSE"; "S"; "SSW"; "SW";
    "WSW"; "W"; "WNW"; "NW"; "NNW" ].

(** [None] is the [undefined] of an index outside [dirs]. *)
Definition getWindDirection (degrees : number) : option string :=
  index_num dirs (rem (Math_round (div degrees (Num (45 # 2)))) (of_Z 16)).

Definition metersToMiles (meters : number) : string :=
  toFixed 1 (div meters (Num (160934 # 100))).

(** An optional string inside a template literal. *)
Definition show (o : option string) : string :=
  match o with
  | Some s => s
  | None => "undefined"
  end.

(** *** Currents (lines 161-171) *)

(** [currentSpeed] and [currentDir] after the two tests; the list has two
    events or more exactly when [tides.length >= 2]. *)

Definition current_estimate (tides : list Tide.T) : string * string :=
  match tides with
  | t0 :: t1 :: _ =>
      if String.eqb (Tide.type t0) "Low" && String.eqb (Tide.type t1) "High"
      then ("0.5-1.5 kt", "Flood (incoming)")
      else if String.eqb (Tide.type t0) "High" && String.eqb (Tide.type t1) "Low"
      then ("0.5-1.5 kt", "Ebb (outgoing)")
      else ("Variable", "Variable")
  | _ => ("Variable", "Variable")
  end.

Definition currentSpeed (tides : list Tide.T) : string := fst (current_estimate tides).
Definition currentDir (tides : list Tide.T) : string := snd (current_estimate tides).

(** *** Period forecasts (lines 174-236) *)

Record Period : Type := mkPeriod { name : string; start : Z; end_ : Z }.

Definition periods : list Period :=
  [ mkPeriod "Morning (08:00-12:00)" 8 12;
    mkPeriod "Afternoon (12:00-18:00)" 12 18;
    mkPeriod "Evening (18:00-00:00)" 18 24;
    mkPeriod "Night (00:00-08:00)" 0 8 ].

(** [startIdx] and [endIdx] after the two clamps (lines 183-194), for an
    hourly [time] array of [len] entries. *)
Definition indices (len currentHour : Z) (period : Period) : Z * Z :=
  let '(startIdx, endIdx) :=
    if start period <? 8 then
      (24 - currentHour + start period, 24 - currentHour + end_ period)
    else
      (start period - currentHour, end_ period - currentHour) in
  (Z.max 0 startIdx, Z.min (len - 1) endIdx).

Definition notAvailable (period : Period) : PeriodForecast.T :=
  {| PeriodForecast.period := name period;
     PeriodForecast.temp := "N/A";
     PeriodForecast.conditions := "N/A";
     PeriodForecast.wind := "N/A";
     PeriodForecast.visibility := "N/A";
     PeriodForecast.precipitation := "N/A";
     PeriodForecast.waves := "N/A" |}.

(** [weatherCodes[Math.floor(weatherCodes.length / 2)]] described; an
    [undefined] there is no key of [codes]. *)
Definition dominantWeather (weatherCodes : list number) : string :=
  match index weatherCodes (Z.of_nat (List.length weatherCodes) / 2) with
  | Some code => getWeatherDescription code
  | None => "Unknown"
  end.

Definition waveHeight (avgWindNum : number) : string :=
  if ltb avgWindNum (of_Z 10) then "1-2 ft"
  else if ltb avgWindNum (of_Z 15) then "2-3 ft"
  else if ltb avgWindNum (of_Z 20) then "3-5 ft"
  else "4-6 ft".

(** The summary of a slice [startIdx, endIdx) (lines 208-235). *)
Definition summary (h : Hourly.T) (period : Period) (startIdx endIdx : Z)
  : PeriodForecast.T :=
  let temps := slice (Hourly.temperature_2m h) startIdx endIdx in
  let precips := slice (Hourly.precipitation_probability h) startIdx endIdx in
  let winds := slice (Hourly.wind_speed_10m h) startIdx endIdx in
  let gusts := slice (Hourly.wind_gusts_10m h) startIdx endIdx in
  let windDirs := slice (Hourly.wind_direction_10m h) startIdx endIdx in
  let visibility := slice (Hourly.visibility h) startIdx endIdx in
  let weatherCodes := slice (Hourly.weather_code h) startIdx endIdx in
  let minTemp := Math_min temps in
  let maxTemp := Math_max temps in
  let maxPrecip := Math_max precips in
  let avgWind := toFixed 0 (div (sum winds) (length_of winds)) in
  let maxGust := toFixed 0 (Math_max gusts) in
  let avgWindDir := getWindDirection (div (sum windDirs) (length_of windDirs)) in
  let minVis := Math_min visibility in
  let avgWindNum := parseFloat avgWind in
  {| PeriodForecast.period := name period;
     PeriodForecast.temp :=
       Number_toString (Math_round minTemp) ++ "-"
         ++ Number_toString (Math_round maxTemp) ++ "°F";
     PeriodForecast.conditions := dominantWeather weatherCodes;
     PeriodForecast.wind :=
       avgWind ++ " kt " ++ show avgWindDir ++ " (Gusts " ++ maxGust ++ " kt)";
     PeriodForecast.visibility := metersToMiles minVis ++ " mi";
     PeriodForecast.precipitation := Number_toString maxPrecip ++ "%";
     PeriodForecast.waves := waveHeight avgWindNum |}.

(** The callback of [periods.map] (lines 182-236) once the arrays of the
    section are there. *)
Definition periodForecast (h : Hourly.T) (currentHour : Z) (period : Period)
  : PeriodForecast.T :=
  let '(startIdx, endIdx) :=
    indices (Z.of_nat (List.length (Hourly.time h))) currentHour period in
  if endIdx <=? startIdx then notAvailable period
  else summary h period startIdx endIdx.

Definition periodForecasts (h : Hourly.T) (currentHour : Z)
  : list PeriodForecast.T :=
  map (periodForecast h currentHour) periods.

(** The seven value arrays of the section as it arrives, read in the order
    of lines 208-214: the first one that the section lacks throws. *)
Definition arrays (raw : HourlySection.T) (time : list string)
  : result Hourly.T :=
  temps <- section (HourlySection.temperature_2m raw) "slice" ;;
  precips <- section (HourlySection.precipitation_probability raw) "slice" ;;
  winds <- section (HourlySection.wind_speed_10m raw) "slice" ;;
  gusts <- section (HourlySection.wind_gusts_10m raw) "slice" ;;
  windDirs <- section (HourlySection.wind_direction_10m raw) "slice" ;;
  visibility <- section (HourlySection.visibility raw) "slice" ;;
  weatherCodes <- section (HourlySection.weather_code raw) "slice" ;;
  Ok (Hourly.mk time temps precips weatherCodes visibility winds windDirs
        gusts).

(** The callback of [periods.map] on the section as it arrives:
    [time.length] is read for every period (line 194), the value arrays only
    past the test of line 196.  On a section that has its arrays this is
    [periodForecast]. *)
Definition periodForecastOf (raw : HourlySection.T) (currentHour : Z)
    (period : Period) : result PeriodForecast.T :=
  time <- section (HourlySection.time raw) "length" ;;
  let '(startIdx, endIdx) :=
    indices (Z.of_nat (List.length time)) currentHour period in
  if endIdx <=? startIdx then Ok (notAvailable period)
  else h <- arrays raw time ;; Ok (summary h period startIdx endIdx).

Definition periodForecastsOf (raw : HourlySection.T) (currentHour : Z)
  : result (list PeriodForecast.T) :=
  mapM (periodForecastOf raw currentHour) periods.

(** *** The report (lines 239-268) *)

Definition currentConditions (c : Current.T) : CurrentConditions.T :=
  {| CurrentConditions.temp :=
       Number_toString (Math_round (Current.temperature_2m c)) ++ "°F";
     CurrentConditions.feelsLike :=
       Number_toString (Math_round (Current.apparent_temperature c)) ++ "°F";
     CurrentConditions.conditions :=
       getWeatherDescription (Current.weather_code c);
     CurrentConditions.windSpeed :=
       Number_toString (Math_round (Current.wind_speed_10m c)) ++ " kt";
     CurrentConditions.windDir :=
       getWindDirection (Current.wind_direction_10m c);
     CurrentConditions.gusts :=
       Number_toString (Math_round (Current.wind_gusts_10m c)) ++ " kt";
     CurrentConditions.pressure :=
       toFixed 2 (div (Current.pressure_msl c) (Num (33864 # 1000)))
         ++ " inHg";
     CurrentConditions.humidity :=
       Number_toString (Current.relative_humidity_2m c) ++ "%" |}.

(** [new Date(l[0]).toLocaleTimeString(...)]; a missing [l[0]] makes an
    Invalid Date. *)
Definition sunTime (l : list string) : string :=
  toLocaleTimeString
    (match index l 0 with
     | Some s => Date_parse s
     | None => None
     end).

(** The same on the array as it arrives (lines 265-266). *)
Definition sunTimeOf (o : option (list string)) : result string :=
  l <- section o "0" ;; Ok (sunTime l).

(** The body of the outer [try]: the report, or the error thrown. *)
Definition forecastObj (now : DateTime) (weather : Fetched WeatherData)
    (tide : Fetched TideData) (water : Fetched WaterTempData)
  : result ForecastData.T :=
  w <- weatherData weather ;;
  let tides := tides tide in
  let waterTemp := waterTemp water in
  let currentHour := getHours now in
  h <- section (hourly w) "time" ;;
  periodForecasts <- periodForecastsOf h currentHour ;;
  c <- section (current w) "temperature_2m" ;;
  d <- section (daily w) "sunrise" ;;
  sunrise <- sunTimeOf (Daily.sunrise d) ;;
  sunset <- sunTimeOf (Daily.sunset d) ;;
  Ok {| ForecastData.location := "Elliott Bay, Seattle";
        ForecastData.shiftStart := toLocaleString (shiftStart now);
        ForecastData.shiftEnd := toLocaleString (shiftEnd now);
        ForecastData.tides := tides;
        ForecastData.conditions :=
          {| Conditions.current := currentConditions c;
             Conditions.forecast := periodForecasts |};
        ForecastData.marine :=
          {| MarineData.waterTemp := waterTemp;
             MarineData.currentSpeed := currentSpeed tides;
             MarineData.currentDir := currentDir tides;
             MarineData.sunrise := sunrise;
             MarineData.sunset := sunset |} |}.

(** *** The component state and [fetchForecast] (lines 67-280) *)

Record State : Type := mkState
  { forecast : option ForecastData.T;
    loading : bool;
    error : option string }.

Definition initial : State := mkState None true None.

Definition fetchForecast (now : DateTime) (weather : Fetched WeatherData)
    (tide : Fetched TideData) (water : Fetched WaterTempData) (st : State)
  : State :=
  match forecastObj now weather tide water with
  | Ok obj => mkState (Some obj) false None
  | Throw errorMsg => mkState (forecast st) false (Some errorMsg)
  end.

(** *** Request dates (lines 85-93, 108) *)

Definition formatDate (date : DateTime) : string :=
  let year := getFullYear date in
  let month := padStart0 2 (Number_toString (of_Z (getMonth date + 1))) in
  let day := padStart0 2 (Number_toString (of_Z (getDate date))) in
  Number_toString (of_Z year) ++ month ++ day.

Definition today (now : DateTime) : string := formatDate (shiftStart now).
Definition tomorrow (now : DateTime) : string := formatDate (shiftEnd now).

Definition NOAA_STATION : string := "9447130".

Definition tideUrl (now : DateTime) : string :=
  "https://api.tidesandcurrents.noaa.gov/api/prod/datagetter?begin_date="
    ++ today now ++ "&end_date=" ++ tomorrow now ++ "&station="
    ++ NOAA_STATION
    ++ "&product=predictions&datum=MLLW&time_zone=lst_ldt&units=english&interval=hilo&format=json".

(** *** The console trace (lines 62-65 and the calls of [addLog]) *)

(** What [addLog] hands to [console.log] inside the tide block. *)
Definition tideLog (tide : Fetched TideData) : list string :=
  match fetch_json tide with
  | Ok tideData =>
      match predictions tideData with
      | Some ps =>
          [ "Tide data received: "
              ++ Number_toString (length_of (map formatTide (slice ps 0 4)))
              ++ " tides" ]
      | None => []
      end
  | Throw m => [ "Tide fetch failed: " ++ m ]
  end.

(** The same inside the water temperature block. *)
Definition waterLog (water : Fetched WaterTempData) : list string :=
  match fetch_json water with
  | Ok waterTempData =>
      match data waterTempData with
      | Some (_ :: _) => [ "Water temp: " ++ waterTemp water ]
      | _ => []
      end
  | Throw m => [ "Water temp unavailable: " ++ m ]
  end.

(** The messages of one run of [fetchForecast], in order. *)
Definition consoleLog (now : DateTime) (weather : Fetched WeatherData)
    (tide : Fetched TideData) (water : Fetched WaterTempData) : list string :=
  "Starting forecast fetch..."
  :: "Fetching weather data from Open-Meteo..."
  :: match weatherData weather with
     | Throw m => [ "ERROR: " ++ m ]
     | Ok w =>
         "Weather data received successfully"
         :: "Fetching tide data from NOAA..."
         :: List.app (tideLog tide)
              ("Fetching water temperature from NOAA..."
               :: List.app (waterLog water)
                    ("Creating period forecasts..."
                     :: match (h <- section (hourly w) "time" ;;
                               periodForecastsOf h (getHours now)) with
                        | Throw m => [ "ERROR: " ++ m ]
                        | Ok _ =>
                            "Building final forecast object..."
                            :: match (_ <- section (current w) "temperature_2m" ;;
                                      d <- section (daily w) "sunrise" ;;
                                      _ <- sunTimeOf (Daily.sunrise d) ;;
                                      sunTimeOf (Daily.sunset d)) with
                               | Throw m => [ "ERROR: " ++ m ]
                               | Ok _ => [ "Forecast complete!" ]
                               end
                        end))
     end.

(** *** What the component shows (lines 286-328, 394-407) *)

Inductive Page : Type :=
| LoadingPage
| ErrorPage (error : string)
| NoPage
| ForecastPage (forecast : ForecastData.T).

Definition render (st : State) : Page :=
  if loading st then LoadingPage
  else
    match error st with
    | Some e =>
        if truthy e then ErrorPage e
        else match forecast st with
             | Some f => ForecastPage f
             | None => NoPage
             end
    | None =>
        match forecast st with
        | Some f => ForecastPage f
        | None => NoPage
        end
    end.

Inductive TidePanel : Type :=
| TideCards (cards : list Tide.T)
| TideUnavailable.

Definition tidePanel (forecast : ForecastData.T) : TidePanel :=
  if (0 <? List.length (ForecastData.tides forecast))%nat
  then TideCards (ForecastData.tides forecast)
  else TideUnavailable.

End App.

(** ** Named periods, sample inputs and the predicates of the statements *)

Import JS App.

Definition morning : Period := mkPeriod "Morning (08:00-12:00)" 8 12.
Definition afternoon : Period := mkPeriod "Afternoon (12:00-18:00)" 12 18.
Definition evening : Period := mkPeriod "Evening (18:00-00:00)" 18 24.
Definition night : Period := mkPeriod "Night (00:00-08:00)" 0 8.

Definition hours24 (f : Z -> Q) : list number :=
  map (fun i => Num (f (Z.of_nat i))) (seq 0 24).

(** A day of hourly values: code 3 at hour 2 and code 0 elsewhere. *)
Definition sampleHourly : Hourly.T :=
  Hourly.mk (repeat "" 24)
    (hours24 (fun i => inject_Z (50 + i)))
    (hours24 (fun i => inject_Z (2 * i)))
    (hours24 (fun i => inject_Z (if i =? 2 then 3 else 0)))
    (hours24 (fun i => inject_Z (10000 + 100 * i)))
    (hours24 (fun i => inject_Z i + (6 # 10))%Q)
    (hours24 (fun i => inject_Z (15 * i)))
    (hours24 (fun i => inject_Z (5 + i))).

Definition sampleWeather : WeatherData :=
  mkWeatherData
    (Some (Current.mk (Num (553 # 10)) (Num 80) (Num 50) (Num 3)
             (Num (10132 # 10)) (Num (74 # 10)) (Num 350) (Num 12)))
    (Some (HourlySection.complete sampleHourly))
    (Some (Daily.mk (Some ["2026-11-01T06:55"]) (Some ["2026-11-01T16:50"]))).

Definition samplePredictions : list Prediction.T :=
  [ Prediction.mk "2026-11-01 03:24" "L" "-1.234";
    Prediction.mk "2026-11-01 09:24" "H" "10.25";
    Prediction.mk "2026-11-01 15:00" "L" "3";
    Prediction.mk "2026-11-01 21:24" "H" "9.96";
    Prediction.mk "2026-11-02 03:24" "L" "1" ].

Definition sampleTide : Fetched TideData :=
  Responded 200 (inr (mkTideData (Some samplePredictions))).

Definition sampleWater : Fetched WaterTempData :=
  Responded 200 (inr (mkWaterTempData (Some [Reading.mk "48.7"]))).

(** Sunday 2026-11-01, 08:30:12.005 *)
Definition sampleNow : DateTime := mkDateTime 20758 8 30 12 5.

Definition is_some {A} (o : option A) : bool :=
  match o with
  | Some _ => true
  | None => false
  end.

(** Some period of the table is not empty at this hour, so that its summary
    reads the value arrays. *)
Definition reads_values (len currentHour : Z) : bool :=
  existsb
    (fun period =>
       let '(startIdx, endIdx) := indices len currentHour period in
       negb (endIdx <=? startIdx))
    periods.

Definition has_values (raw : HourlySection.T) : bool :=
  is_some (HourlySection.temperature_2m raw)
  && is_some (HourlySection.precipitation_probability raw)
  && is_some (HourlySection.wind_speed_10m raw)
  && is_some (HourlySection.wind_gusts_10m raw)
  && is_some (HourlySection.wind_direction_10m raw)
  && is_some (HourlySection.visibility raw)
  && is_some (HourlySection.weather_code raw).

(** The [hourly] section has what the period forecasts dereference: the
    [time] array, and the seven value arrays when a period reads them. *)
Definition hourly_usable (raw : HourlySection.T) (currentHour : Z) : bool :=
  match HourlySection.time raw with
  | Some time =>
      negb (reads_values (Z.of_nat (List.length time)) currentHour)
      || has_values raw
  | None => false
  end.

(** The weather request gives the run what it dereferences: an OK status,
    a body that parses, the three sections of the payload, the arrays of
    [hourly] that the period forecasts read, and the two arrays of
    [daily]. *)
Definition usable (now : DateTime) (weather : Fetched WeatherData) : bool :=
  match weather with
  | Responded status (inr w) =>
      ok status
      && match current w, hourly w, daily w with
         | Some _, Some h, Some d =>
             hourly_usable h (getHours now)
             && is_some (Daily.sunrise d) && is_some (Daily.sunset d)
         | _, _, _ => false
         end
  | _ => false
  end.

(** The invariant of an hourly series: its arrays share one length. *)
Definition same_length (h : Hourly.T) : Prop :=
  let n := List.length (Hourly.time h) in
  List.length (Hourly.temperature_2m h) = n
  /\ List.length (Hourly.precipitation_probability h) = n
  /\ List.length (Hourly.weather_code h) = n
  /\ List.length (Hourly.visibility h) = n
  /\ List.length (Hourly.wind_speed_10m h) = n
  /\ List.length (Hourly.wind_direction_10m h) = n
  /\ List.length (Hourly.wind_gusts_10m h) = n.

(** A payload that breaks the invariant: 24 time stamps and no value. *)
Definition raggedHourly : Hourly.T :=
  Hourly.mk (repeat "" 24) [] [] [] [] [] [] [].

Definition raggedWeather : WeatherData :=
  mkWeatherData (current sampleWeather)
    (Some (HourlySection.complete raggedHourly))
    (Some (Daily.mk (Some []) (Some []))).

(** A payload whose [hourly] section has the time stamps and nothing else,
    and one whose [daily] section lacks [sunset]. *)
Definition bareWeather : WeatherData :=
  mkWeatherData (current sampleWeather)
    (Some (HourlySection.mk (Some (repeat "" 24)) None None None None None
             None None))
    (daily sampleWeather).

Definition noSunsetWeather : WeatherData :=
  mkWeatherData (current sampleWeather) (hourly sampleWeather)
    (Some (Daily.mk (Some ["2026-11-01T06:55"]) None)).

(** The report that a run assembles from its parts (lines 239-268). *)
Definition report (now : DateTime) (tide : Fetched TideData)
    (water : Fetched WaterTempData) (c : Current.T)
    (periodForecasts : list PeriodForecast.T) (sunrise sunset : string)
  : ForecastData.T :=
  {| ForecastData.location := "Elliott Bay, Seattle";
     ForecastData.shiftStart := toLocaleString (shiftStart now);
     ForecastData.shiftEnd := toLocaleString (shiftEnd now);
     ForecastData.tides := tides tide;
     ForecastData.conditions :=
       {| Conditions.current := currentConditions c;
          Conditions.forecast := periodForecasts |};
     ForecastData.marine :=
       {| MarineData.waterTemp := waterTemp water;
          MarineData.currentSpeed := currentSpeed (tides tide);
          MarineData.currentDir := currentDir (tides tide);
          MarineData.sunrise := sunrise;
          MarineData.sunset := sunset |} |}.

(** The fields of a report that come from the weather payload and the clock
    are the ones computed from them. *)
Definition weather_derived (now : DateTime) (weather : Fetched WeatherData)
    (r : ForecastData.T) : Prop :=
  exists w c h d,
    weatherData weather = Ok w
    /\ current w = Some c /\ hourly w = Some h /\ daily w = Some d
    /\ ForecastData.location r = "Elliott Bay, Seattle"
    /\ ForecastData.shiftStart r = toLocaleString (shiftStart now)
    /\ ForecastData.shiftEnd r = toLocaleString (shiftEnd now)
    /\ Conditions.current (ForecastData.conditions r) = currentConditions c
    /\ periodForecastsOf h (getHours now)
       = Ok (Conditions.forecast (ForecastData.conditions r))
    /\ sunTimeOf (Daily.sunrise d)
       = Ok (MarineData.sunrise (ForecastData.marine r))
    /\ sunTimeOf (Daily.sunset d)
       = Ok (MarineData.sunset (ForecastData.marine r)).

(** No field of a period forecast is blank. *)
Definition period_populated (p : PeriodForecast.T) : Prop :=
  PeriodForecast.period p <> "" /\ PeriodForecast.temp p <> ""
  /\ PeriodForecast.conditions p <> "" /\ PeriodForecast.wind p <> ""
  /\ PeriodForecast.visibility p <> ""
  /\ PeriodForecast.precipitation p <> "" /\ PeriodForecast.waves p <> "".

(** No weather-derived field of a report is blank, and the forecast has the
    four periods of the table, in order.  (The wind direction is a compass
    point or [undefined], which it is for a bearing that is negative or no
    number.) *)
Definition populated (r : ForecastData.T) : Prop :=
  let c := Conditions.current (ForecastData.conditions r) in
  let f := Conditions.forecast (ForecastData.conditions r) in
  ForecastData.location r <> "" /\ ForecastData.shiftStart r <> ""
  /\ ForecastData.shiftEnd r <> ""
  /\ CurrentConditions.temp c <> "" /\ CurrentConditions.feelsLike c <> ""
  /\ CurrentConditions.conditions c <> ""
  /\ CurrentConditions.windSpeed c <> ""
  /\ CurrentConditions.windDir c <> Some ""
  /\ CurrentConditions.gusts c <> "" /\ CurrentConditions.pressure c <> ""
  /\ CurrentConditions.humidity c <> ""
  /\ map PeriodForecast.period f = map name periods
  /\ Forall period_populated f
  /\ MarineData.sunrise (ForecastData.marine r) <> ""
  /\ MarineData.sunset (ForecastData.marine r) <> "".

(** The tide request failed, or its body has no or an empty [predictions]. *)
Definition tide_unavailable (tide : Fetched TideData) : Prop :=
  match tide with
  | Responded _ (inr d) => predictions d = None \/ predictions d = Some []
  | _ => True
  end.

(** The water temperature request failed, or its body has no or an empty
    [data]. *)
Definition water_unavailable (water : Fetched WaterTempData) : Prop :=
  match water with
  | Responded _ (inr d) => data d = None \/ data d = Some []
  | _ => True
  end.

Fixpoint digits_only (s : string) : bool :=
  match s with
  | EmptyString => true
  | String c s' => is_digit c && digits_only s'
  end.

(** A time of day written [HH:MM], from 00:00 to 23:59. *)
Definition is_HHMM (s : string) : bool :=
  match s with
  | String h1 (String h2 (String ":" (String m1 (String m2 "")))) =>
      digits_only (String h1 (String h2 (String m1 (String m2 ""))))
      && (digits_value (String h1 (String h2 "")) <? 24)%N
      && (digits_value (String m1 (String m2 "")) <? 60)%N
  | _ => false
  end.

(** A height in feet with one decimal: an optional minus sign, one or more
    digits, a point, one digit, and the unit. *)
Definition strip_minus (s : string) : string :=
  match s with
  | String "-" r => r
  | _ => s
  end.

Definition one_decimal_ft (s : string) : bool :=
  let (ip, r) := span_digits (strip_minus s) in
  negb (String.eqb ip "")
  && match r with
     | String "." (String d unit) => is_digit d && String.eqb unit " ft"
     | _ => false
     end.

(** A numeric string, as the feeds send them: it reads as a finite number
    of a magnitude below 10^20, where [toFixed] writes every digit. *)
Definition numeric (v : string) : Prop :=
  exists q, parseFloat v = Num q /\ Qfloor (Qabs q) < 10 ^ 20.

(** The arithmetic mean of a slice of finite values. *)
Definition mean (qs : list Q) : Q :=
  fold_left Qplus qs 0%Q / inject_Z (Z.of_nat (List.length qs)).


(** Hourly entry [i] is aggregated in the forecast of [period]. *)
Definition covers (len currentHour : Z) (period : Period) (i : Z) : Prop :=
  fst (indices len currentHour period) <= i
  < snd (indices len currentHour period).

(** The fields of a [Date] are in their ranges. *)
Definition valid_time (d : DateTime) : Prop :=
  0 <= hours d <= 23 /\ 0 <= minutes d <= 59 /\ 0 <= seconds d <= 59
  /\ 0 <= millis d <= 999.

(** A decimal integer as a template literal prints it. *)
Definition Z_to_string (z : Z) : string :=
  (if z <? 0 then "-" else "") ++ N_to_string (Z.to_N (Z.abs z)).

(** The day number that a date written [YYYYMMDD] stands for. *)
Definition decodeDate (s : string) : option Z :=
  match field s 0 4, field s 4 2, field s 6 2 with
  | Some y, Some m, Some d =>
      if (1 <=? m) && (m <=? 12) && (1 <=? d) && (d <=? 31)
      then Some (days_from_civil y m d) else None
  | _, _, _ => None
  end.

(** ** Properties *)

Lemma periods_cases (period : Period) :
  In period periods ->
  period = morning \/ period = afternoon \/ period = evening \/ period = night.
Proof.
  unfold periods, morning, afternoon, evening, night; simpl.
  intros [H | [H | [H | [H | []]]]]; subst; auto.
Qed.

(** *** The slicer *)

(** C1, as the code has it: over an hourly series of 24 entries and with
    [currentHour = 8], the four periods get the index ranges [0,4), [4,10),
    [10,16) and, for the Night, [16,23): its end, 24, is clamped to
    [length - 1]. *)
Theorem C1_ranges_at_hour_8 (h : Hourly.T) :
  List.length (Hourly.time h) = 24%nat ->
  map (indices (Z.of_nat (List.length (Hourly.time h))) 8) periods
  = [ (0, 4); (4, 10); (10, 16); (16, 23) ].
Proof.
  intros ->. reflexivity.
Qed.

Lemma C1_ranges_at_hour_8_witness :
  map (indices (Z.of_nat (List.length (repeat "" 24))) 8) periods
  = [ (0, 4); (4, 10); (10, 16); (16, 23) ].
Proof.
  apply (C1_ranges_at_hour_8
           (Hourly.mk (repeat "" 24) [] [] [] [] [] [] [])).
  reflexivity.
Defined.

(** C1 as stated fails: the Night range of a series of 24 entries at
    [currentHour = 8] is not [16,24). *)
Lemma C1_night_range_is_not_16_24 :
  map (indices 24 8) periods <> [ (0, 4); (4, 10); (10, 16); (16, 24) ].
Proof.
  vm_compute. discriminate.
Qed.

Lemma indices_clamped (len currentHour : Z) (period : Period) :
  0 <= fst (indices len currentHour period)
  /\ snd (indices len currentHour period) <= len - 1.
Proof.
  unfold indices.
  destruct (start period <? 8); simpl; lia.
Qed.

(** C2, as the code has it: for each of the four periods and every
    [currentHour] from 0 to 23 the clamped indices satisfy [0 <= startIdx]
    and [endIdx <= length - 1]; [startIdx <= endIdx] is not promised, and
    whenever [startIdx >= endIdx] the summary carries the period's name and
    N/A in each of its six data fields. *)
Theorem C2_clamped_range_and_empty_summary
    (h : Hourly.T) (currentHour : Z) (period : Period) :
  In period periods ->
  0 <= currentHour <= 23 ->
  let len := Z.of_nat (List.length (Hourly.time h)) in
  let startIdx := fst (indices len currentHour period) in
  let endIdx := snd (indices len currentHour period) in
  let r := periodForecast h currentHour period in
  0 <= startIdx /\ endIdx <= len - 1
  /\ (startIdx >= endIdx ->
      PeriodForecast.period r = name period
      /\ PeriodForecast.temp r = "N/A"
      /\ PeriodForecast.conditions r = "N/A"
      /\ PeriodForecast.wind r = "N/A"
      /\ PeriodForecast.visibility r = "N/A"
      /\ PeriodForecast.precipitation r = "N/A"
      /\ PeriodForecast.waves r = "N/A").
Proof.
  intros _ _ len startIdx endIdx r.
  destruct (indices_clamped len currentHour period) as [Hs He].
  repeat split; try assumption;
    subst r; unfold periodForecast; fold len;
    destruct (indices len currentHour period) as [s e] eqn:E;
    subst startIdx endIdx; simpl in *;
    (destruct (e <=? s) eqn:Hle; [reflexivity | lia]).
Qed.

Lemma C2_clamped_range_and_empty_summary_witness :
  let h := Hourly.mk (repeat "" 24) [] [] [] [] [] [] [] in
  fst (indices 24 13 morning) >= snd (indices 24 13 morning)
  /\ PeriodForecast.waves (periodForecast h 13 morning) = "N/A".
Proof.
  intro h.
  split; [vm_compute; discriminate |].
  apply (C2_clamped_range_and_empty_summary h 13 morning).
  - left; reflexivity.
  - lia.
  - vm_compute; discriminate.
Defined.

(** C2 as stated fails: for the Morning period at [currentHour = 13] over a
    series of 24 entries, [startIdx = 0] and [endIdx = -1]. *)
Lemma C2_morning_at_13_end_before_start :
  indices 24 13 morning = (0, -1)
  /\ ~ (0 <= fst (indices 24 13 morning) <= snd (indices 24 13 morning)
        /\ snd (indices 24 13 morning) <= 24 - 1).
Proof.
  split; [reflexivity |].
  vm_compute. intros [[_ H] _]. apply H. reflexivity.
Qed.

(** *** The shift window *)

(** C3, as the code has it: the shift-start hour is the constant 8.  For
    every [now], the window starts at 08:00:00.000 local time of today when
    [now.hour >= 8] and of yesterday when [now.hour < 8], and it ends at
    08:00:00.000 local time of the calendar day after its start.  In every
    time zone the window lasts 24 hours less the change of the UTC offset
    between its two ends, hence 24 hours when the offset is the same at
    both. *)
Theorem C3_shift_window (tz : Zone) (now : DateTime) :
  getHours (shiftStart now) = 8
  /\ (minutes (shiftStart now), seconds (shiftStart now),
      millis (shiftStart now)) = (0, 0, 0)
  /\ (getHours now >= 8 -> day (shiftStart now) = day now)
  /\ (getHours now < 8 -> day (shiftStart now) = day now - 1)
  /\ shiftEnd now = mkDateTime (day (shiftStart now) + 1) 8 0 0 0
  /\ getTime tz (shiftEnd now) - getTime tz (shiftStart now)
     = 24 * 60 * 60 * 1000
       - (offset tz (shiftEnd now) - offset tz (shiftStart now))
  /\ (offset tz (shiftEnd now) = offset tz (shiftStart now) ->
      getTime tz (shiftEnd now)
      = getTime tz (shiftStart now) + 24 * 60 * 60 * 1000).
Proof.
  assert (E : shiftEnd now = mkDateTime (day (shiftStart now) + 1) 8 0 0 0)
    by reflexivity.
  assert (S : hours (shiftStart now) = 8 /\ minutes (shiftStart now) = 0
              /\ seconds (shiftStart now) = 0 /\ millis (shiftStart now) = 0).
  { unfold shiftStart, setHours, addDays.
    destruct (getHours now <? 8); repeat split; reflexivity. }
  destruct S as (Sh & Sm & Ss & Sms).
  assert (D : getTime tz (shiftEnd now) - getTime tz (shiftStart now)
              = 24 * 60 * 60 * 1000
                - (offset tz (shiftEnd now) - offset tz (shiftStart now))).
  { unfold getTime, wallClock. rewrite Sh, Sm, Ss, Sms, E.
    cbn [day hours minutes seconds millis]. lia. }
  split; [| split; [| split; [| split; [| split; [| split]]]]].
  - exact Sh.
  - rewrite Sm, Ss, Sms. reflexivity.
  - unfold shiftStart, getHours, setHours, addDays.
    destruct (hours now <? 8) eqn:H; simpl; lia.
  - unfold shiftStart, getHours, setHours, addDays.
    destruct (hours now <? 8) eqn:H; simpl; lia.
  - exact E.
  - exact D.
  - intros H. rewrite H in D. lia.
Qed.

(** At 08:30 on Sunday 2026-11-01 in Seattle the window runs from 08:00
    that day to 08:00 on Monday, both on standard time: 24 hours. *)
Lemma C3_shift_window_witness :
  getTime losAngeles (shiftEnd sampleNow)
  = getTime losAngeles (shiftStart sampleNow) + 24 * 60 * 60 * 1000.
Proof.
  apply (C3_shift_window losAngeles sampleNow).
  vm_compute. reflexivity.
Defined.

(** C3 as stated fails across a change of the clocks: at 03:15 on Sunday
    2026-11-01 in Seattle the window runs from 08:00 on Saturday (daylight
    time, UTC-7) to 08:00 on Sunday (standard time, UTC-8), which is 25
    hours, not 24. *)
Lemma C3_window_of_25_hours :
  let now := mkDateTime 20758 3 15 0 0 in
  shiftStart now = mkDateTime 20757 8 0 0 0
  /\ shiftEnd now = mkDateTime 20758 8 0 0 0
  /\ offset losAngeles (shiftStart now) = - (7 * 60 * 60 * 1000)
  /\ offset losAngeles (shiftEnd now) = - (8 * 60 * 60 * 1000)
  /\ getTime losAngeles (shiftEnd now)
     = getTime losAngeles (shiftStart now) + 25 * 60 * 60 * 1000
  /\ getTime losAngeles (shiftEnd now)
     <> getTime losAngeles (shiftStart now) + 24 * 60 * 60 * 1000.
Proof.
  vm_compute. repeat split; discriminate.
Qed.

(** *** Tide kinds and the current estimate *)

Lemma formatTide_type (p : Prediction.T) :
  Tide.type (formatTide p)
  = if String.eqb (Prediction.type p) "H" then "High" else "Low".
Proof. reflexivity. Qed.

Lemma tides_formatted (tide : Fetched TideData) (x : Tide.T) :
  In x (tides tide) -> exists p, x = formatTide p.
Proof.
  unfold tides, fetch_json.
  destruct tide as [m | status [m | [[ps |]]]]; simpl; try contradiction.
  intros H. apply in_map_iff in H. destruct H as [p [Hp _]].
  exists p. symmetry. exact Hp.
Qed.

(** *** The report and its parts *)

Lemma forecastObj_ok now weather tide water r :
  forecastObj now weather tide water = Ok r <->
  exists w h pf c d sunrise sunset,
    weatherData weather = Ok w /\ hourly w = Some h
    /\ periodForecastsOf h (getHours now) = Ok pf
    /\ current w = Some c /\ daily w = Some d
    /\ sunTimeOf (Daily.sunrise d) = Ok sunrise
    /\ sunTimeOf (Daily.sunset d) = Ok sunset
    /\ r = report now tide water c pf sunrise sunset.
Proof.
  unfold forecastObj, bind, section. split.
  - destruct (weatherData weather) as [w | m]; [| discriminate].
    destruct (hourly w) as [h |] eqn:Eh; [| discriminate].
    destruct (periodForecastsOf h (getHours now)) as [pf | m] eqn:Epf;
      [| discriminate].
    destruct (current w) as [c |] eqn:Ec; [| discriminate].
    destruct (daily w) as [d |] eqn:Ed; [| discriminate].
    destruct (sunTimeOf (Daily.sunrise d)) as [sunrise | m] eqn:Esr;
      [| discriminate].
    destruct (sunTimeOf (Daily.sunset d)) as [sunset | m] eqn:Ess;
      [| discriminate].
    intros E. exists w, h, pf, c, d, sunrise, sunset.
    do 7 (split; [first [reflexivity | assumption] |]).
    unfold report. congruence.
  - intros (w & h & pf & c & d & sunrise & sunset
            & Ew & Eh & Epf & Ec & Ed & Esr & Ess & ->).
    rewrite Ew, Eh, Epf, Ec, Ed, Esr, Ess. reflexivity.
Qed.

Lemma forecastObj_fields now weather tide water r :
  forecastObj now weather tide water = Ok r ->
  ForecastData.tides r = tides tide
  /\ MarineData.waterTemp (ForecastData.marine r) = waterTemp water
  /\ MarineData.currentSpeed (ForecastData.marine r) = currentSpeed (tides tide)
  /\ MarineData.currentDir (ForecastData.marine r) = currentDir (tides tide).
Proof.
  intros H. apply forecastObj_ok in H.
  destruct H as (w & h & pf & c & d & sunrise & sunset & H).
  destruct H as (_ & _ & _ & _ & _ & _ & _ & ->).
  unfold report. cbn [ForecastData.tides ForecastData.marine
                      MarineData.waterTemp MarineData.currentSpeed
                      MarineData.currentDir].
  auto.
Qed.

Lemma slice_from_0 {A} (l : list A) (k : Z) :
  0 <= k -> slice l 0 k = firstn (Z.to_nat k) l.
Proof.
  intros Hk. unfold slice, slice_bound.
  destruct (k <? 0) eqn:E; [lia |]. simpl (0 <? 0). cbv iota.
  rewrite (Z.min_l 0) by lia. simpl skipn. rewrite Z.sub_0_r.
  destruct (Z.le_ge_cases k (Z.of_nat (List.length l))).
  - rewrite Z.min_l by lia. reflexivity.
  - rewrite Z.min_r by lia. rewrite Nat2Z.id.
    rewrite !firstn_all2 by lia. reflexivity.
Qed.

Lemma tides_of_predictions (status : Z) (ps : list Prediction.T) :
  tides (Responded status (inr (mkTideData (Some ps))))
  = map formatTide (firstn 4 ps).
Proof.
  unfold tides, fetch_json, bind, try_catch. cbn [predictions].
  rewrite slice_from_0 by lia. reflexivity.
Qed.

Lemma tides_at (status : Z) (ps : list Prediction.T) (i : nat)
    (p : Prediction.T) :
  (i < 4)%nat -> nth_error ps i = Some p ->
  nth_error (tides (Responded status (inr (mkTideData (Some ps))))) i
  = Some (formatTide p).
Proof.
  intros Hi Hp. rewrite tides_of_predictions.
  rewrite nth_error_map, nth_error_firstn.
  destruct (Nat.ltb_spec i 4); [| lia]. rewrite Hp. reflexivity.
Qed.

(** C10: a prediction whose [type] is not exactly the string ['H'] becomes a
    "Low" event, whatever the string is, and one whose [type] is ['H']
    becomes "High"; the event at each of the first four positions of the
    normalised list is the prediction at that position so converted; and no
    event of the normalised list has another kind. *)
Theorem C10_kind_is_High_or_Low :
  (forall p, Prediction.type p <> "H" -> Tide.type (formatTide p) = "Low")
  /\ (forall p, Prediction.type p = "H" -> Tide.type (formatTide p) = "High")
  /\ (forall status ps i p,
        (i < 4)%nat -> nth_error ps i = Some p ->
        exists x,
          nth_error (tides (Responded status (inr (mkTideData (Some ps))))) i
          = Some x
          /\ (Prediction.type p <> "H" -> Tide.type x = "Low")
          /\ (Prediction.type p = "H" -> Tide.type x = "High"))
  /\ (forall tide x, In x (tides tide) ->
        Tide.type x = "High" \/ Tide.type x = "Low").
Proof.
  assert (L : forall p, Prediction.type p <> "H" ->
                        Tide.type (formatTide p) = "Low").
  { intros p H. rewrite formatTide_type.
    destruct (String.eqb_spec (Prediction.type p) "H");
      [contradiction | reflexivity]. }
  assert (U : forall p, Prediction.type p = "H" ->
                        Tide.type (formatTide p) = "High").
  { intros p H. rewrite formatTide_type, H. reflexivity. }
  split; [exact L | split; [exact U | split]].
  - intros status ps i p Hi Hp. exists (formatTide p).
    split; [apply tides_at; assumption | split; [apply L | apply U]].
  - intros tide x H. destruct (tides_formatted _ _ H) as [p ->].
    rewrite formatTide_type.
    destruct (String.eqb (Prediction.type p) "H"); auto.
Qed.

(** C7: over the normalised tide list, a Low followed by a High gives the
    Flood direction with speed "0.5-1.5 kt", a High followed by a Low gives
    the Ebb direction with the same speed, and every other list, also one
    of fewer than two events, gives "Variable" for both; the report carries
    this estimate of its own tide list. *)
Theorem C7_current_classification :
  (forall t0 t1 rest,
      Tide.type t0 = "Low" -> Tide.type t1 = "High" ->
      currentDir (t0 :: t1 :: rest) = "Flood (incoming)"
      /\ currentSpeed (t0 :: t1 :: rest) = "0.5-1.5 kt")
  /\ (forall t0 t1 rest,
      Tide.type t0 = "High" -> Tide.type t1 = "Low" ->
      currentDir (t0 :: t1 :: rest) = "Ebb (outgoing)"
      /\ currentSpeed (t0 :: t1 :: rest) = "0.5-1.5 kt")
  /\ (forall t0 t1 rest,
      ~ (Tide.type t0 = "Low" /\ Tide.type t1 = "High") ->
      ~ (Tide.type t0 = "High" /\ Tide.type t1 = "Low") ->
      currentDir (t0 :: t1 :: rest) = "Variable"
      /\ currentSpeed (t0 :: t1 :: rest) = "Variable")
  /\ (forall l, (List.length l < 2)%nat ->
      currentDir l = "Variable" /\ currentSpeed l = "Variable")
  /\ (forall now weather tide water r,
      forecastObj now weather tide water = Ok r ->
      MarineData.currentDir (ForecastData.marine r)
        = currentDir (ForecastData.tides r)
      /\ MarineData.currentSpeed (ForecastData.marine r)
        = currentSpeed (ForecastData.tides r)).
Proof.
  unfold currentDir, currentSpeed, current_estimate.
  split; [| split; [| split; [| split]]].
  - intros t0 t1 rest -> ->. split; reflexivity.
  - intros t0 t1 rest -> ->. split; reflexivity.
  - intros t0 t1 rest H1 H2.
    destruct (String.eqb_spec (Tide.type t0) "Low") as [E0 | E0];
      destruct (String.eqb_spec (Tide.type t1) "High") as [E1 | E1];
      destruct (String.eqb_spec (Tide.type t0) "High") as [E2 | E2];
      destruct (String.eqb_spec (Tide.type t1) "Low") as [E3 | E3];
      simpl; try (split; reflexivity); tauto.
  - intros [| t0 [| t1 rest]] H; simpl in *; try (split; reflexivity); lia.
  - intros now weather tide water r H.
    destruct (forecastObj_fields _ _ _ _ _ H) as (-> & _ & -> & ->).
    split; reflexivity.
Qed.

Lemma C7_current_classification_witness :
  let lo := Tide.mk "03:24" "Low" "1.0 ft" in
  let hi := Tide.mk "09:30" "High" "9.8 ft" in
  currentDir [lo; hi] = "Flood (incoming)"
  /\ currentDir [hi; lo] = "Ebb (outgoing)"
  /\ currentDir [lo; lo] = "Variable"
  /\ currentDir [hi] = "Variable".
Proof.
  intros lo hi.
  destruct C7_current_classification as (Hf & He & Ho & Hs & _).
  split; [| split; [| split]].
  - apply (Hf lo hi []); reflexivity.
  - apply (He hi lo []); reflexivity.
  - apply (Ho lo lo []); intros [H1 H2]; discriminate.
  - apply (Hs [hi]). simpl. lia.
Defined.

(** A response whose kinds are a lower-case letter, the letter H, the empty
    string and a word gives Low, High, Low and Low. *)
Lemma C10_kind_is_High_or_Low_witness :
  let ps := [ Prediction.mk "2026-11-01 03:24" "h" "1.2";
              Prediction.mk "2026-11-01 09:24" "H" "10.3";
              Prediction.mk "2026-11-01 15:00" "" "3.0";
              Prediction.mk "2026-11-01 21:24" "High" "9.9" ] in
  let out := tides (Responded 200 (inr (mkTideData (Some ps)))) in
  (exists x, nth_error out 0 = Some x /\ Tide.type x = "Low")
  /\ (exists x, nth_error out 1 = Some x /\ Tide.type x = "High")
  /\ (exists x, nth_error out 2 = Some x /\ Tide.type x = "Low")
  /\ (exists x, nth_error out 3 = Some x /\ Tide.type x = "Low")
  /\ map Tide.type out = ["Low"; "High"; "Low"; "Low"].
Proof.
  intros ps out.
  destruct C10_kind_is_High_or_Low as (_ & _ & H & _).
  assert (K : forall i p, (i < 4)%nat -> nth_error ps i = Some p ->
                exists x, nth_error out i = Some x
                          /\ Tide.type x
                             = if String.eqb (Prediction.type p) "H"
                               then "High" else "Low").
  { intros i p Hi Hp. destruct (H 200 ps i p Hi Hp) as (x & E & Hl & Hh).
    exists x. split; [exact E |].
    destruct (String.eqb_spec (Prediction.type p) "H") as [T | T];
      [apply Hh | apply Hl]; exact T. }
  split; [| split; [| split; [| split]]].
  - apply (K 0%nat _ ltac:(lia) eq_refl).
  - apply (K 1%nat _ ltac:(lia) eq_refl).
  - apply (K 2%nat _ ltac:(lia) eq_refl).
  - apply (K 3%nat _ ltac:(lia) eq_refl).
  - vm_compute. reflexivity.
Defined.

(** *** Slices *)

Lemma slice_inside {A} (l : list A) (s e : Z) :
  0 <= s -> s <= e -> e <= Z.of_nat (List.length l) ->
  slice l s e = firstn (Z.to_nat (e - s)) (skipn (Z.to_nat s) l).
Proof.
  intros Hs Hse He. unfold slice, slice_bound.
  destruct (s <? 0) eqn:E1; [lia |].
  destruct (e <? 0) eqn:E2; [lia |].
  rewrite !Z.min_l by lia. reflexivity.
Qed.

Lemma slice_length {A} (l : list A) (s e : Z) :
  0 <= s -> s <= e -> e <= Z.of_nat (List.length l) ->
  Z.of_nat (List.length (slice l s e)) = e - s.
Proof.
  intros Hs Hse He. rewrite slice_inside by assumption.
  rewrite length_firstn, length_skipn. lia.
Qed.

Lemma index_slice {A} (l : list A) (s e i : Z) :
  0 <= s -> e <= Z.of_nat (List.length l) -> 0 <= i < e - s ->
  index (slice l s e) i = index l (s + i).
Proof.
  intros Hs He Hi. rewrite slice_inside by lia. unfold index.
  destruct (i <? 0) eqn:E1; [lia |].
  destruct (s + i <? 0) eqn:E2; [lia |].
  rewrite nth_error_firstn.
  destruct (Nat.ltb_spec (Z.to_nat i) (Z.to_nat (e - s))); [| lia].
  rewrite nth_error_skipn. f_equal. lia.
Qed.

Lemma index_inside {A} (l : list A) (i : Z) :
  0 <= i < Z.of_nat (List.length l) -> exists x, index l i = Some x.
Proof.
  intros Hi. unfold index. destruct (i <? 0) eqn:E; [lia |].
  destruct (nth_error l (Z.to_nat i)) eqn:N; [eauto |].
  apply nth_error_None in N. lia.
Qed.

(** *** The dominant condition *)

Lemma as_integer_of_Z (k : Z) : as_integer (of_Z k) = Some k.
Proof.
  unfold as_integer, of_Z, inject_Z.
  rewrite Qred_identity by apply Z.gcd_1_r. reflexivity.
Qed.

Lemma getWeatherDescription_table (k : Z) (label : string) :
  In (k, label) codes -> getWeatherDescription (of_Z k) = label.
Proof.
  intros H. unfold getWeatherDescription. rewrite as_integer_of_Z.
  unfold codes in H. simpl in H.
  repeat (destruct H as [H | H]; [injection H as <- <-; reflexivity |]).
  contradiction.
Qed.

Lemma getWeatherDescription_unknown (code : number) :
  (forall k, as_integer code = Some k -> lookup k codes = None) ->
  getWeatherDescription code = "Unknown".
Proof.
  intros H. unfold getWeatherDescription.
  destruct (as_integer code) as [k |]; [| reflexivity].
  rewrite (H k eq_refl). reflexivity.
Qed.

(** C9: when the slice of a period is not empty, the condition of its
    summary is the description of the weather code at the middle index
    [floor(length / 2)] of the slice, which is index
    [startIdx + floor((endIdx - startIdx) / 2)] of the hourly array; the
    description is the label of the code in the table, and "Unknown" for a
    code that is no key of the table. *)
Theorem C9_dominant_condition
    (h : Hourly.T) (currentHour : Z) (period : Period) :
  let len := Z.of_nat (List.length (Hourly.time h)) in
  let startIdx := fst (indices len currentHour period) in
  let endIdx := snd (indices len currentHour period) in
  let weatherCodes := slice (Hourly.weather_code h) startIdx endIdx in
  List.length (Hourly.weather_code h) = List.length (Hourly.time h) ->
  startIdx < endIdx ->
  (exists code,
      index weatherCodes (Z.of_nat (List.length weatherCodes) / 2) = Some code
      /\ index (Hourly.weather_code h)
           (startIdx + (endIdx - startIdx) / 2) = Some code
      /\ PeriodForecast.conditions (periodForecast h currentHour period)
         = getWeatherDescription code)
  /\ (forall k label, In (k, label) codes ->
        getWeatherDescription (of_Z k) = label)
  /\ (forall code,
        (forall k, as_integer code = Some k -> lookup k codes = None) ->
        getWeatherDescription code = "Unknown").
Proof.
  intros len startIdx endIdx weatherCodes Hlen Hne.
  split; [| split;
            [exact getWeatherDescription_table
            | exact getWeatherDescription_unknown]].
  destruct (indices_clamped len currentHour period) as [Hs He].
  fold startIdx in Hs. fold endIdx in He.
  assert (Hl : Z.of_nat (List.length weatherCodes) = endIdx - startIdx).
  { apply slice_length; lia. }
  assert (Hmid : 0 <= (endIdx - startIdx) / 2 < endIdx - startIdx).
  { split; [apply Z.div_pos; lia | apply Z.div_lt_upper_bound; lia]. }
  destruct (index_inside weatherCodes (Z.of_nat (List.length weatherCodes) / 2))
    as [code Hcode]; [rewrite Hl; exact Hmid |].
  exists code. split; [exact Hcode | split].
  - rewrite <- Hcode, Hl. symmetry. apply index_slice; lia.
  - unfold periodForecast. fold len.
    destruct (indices len currentHour period) as [s e] eqn:E.
    simpl in startIdx, endIdx. subst startIdx endIdx.
    destruct (e <=? s) eqn:Hle; [lia |].
    unfold summary, dominantWeather; simpl. fold weatherCodes.
    rewrite Hcode. reflexivity.
Qed.

Lemma C9_dominant_condition_witness :
  PeriodForecast.conditions (periodForecast sampleHourly 8 morning)
  = "Overcast".
Proof.
  destruct (C9_dominant_condition sampleHourly 8 morning)
    as [[code (_ & Hc & ->)] _].
  - reflexivity.
  - reflexivity.
  - vm_compute in Hc. injection Hc as <-. reflexivity.
Defined.

(** *** The failure policy *)

Lemma arrays_time raw time h :
  arrays raw time = Ok h -> Hourly.time h = time.
Proof.
  unfold arrays, bind, section.
  destruct (HourlySection.temperature_2m raw); [| discriminate].
  destruct (HourlySection.precipitation_probability raw); [| discriminate].
  destruct (HourlySection.wind_speed_10m raw); [| discriminate].
  destruct (HourlySection.wind_gusts_10m raw); [| discriminate].
  destruct (HourlySection.wind_direction_10m raw); [| discriminate].
  destruct (HourlySection.visibility raw); [| discriminate].
  destruct (HourlySection.weather_code raw); [| discriminate].
  intros [= <-]. reflexivity.
Qed.

Lemma arrays_values raw time :
  if has_values raw then exists h, arrays raw time = Ok h
  else arrays raw time = Throw (TypeError "slice").
Proof.
  unfold has_values, arrays, bind, section.
  destruct (HourlySection.temperature_2m raw); [| reflexivity].
  destruct (HourlySection.precipitation_probability raw); [| reflexivity].
  destruct (HourlySection.wind_speed_10m raw); [| reflexivity].
  destruct (HourlySection.wind_gusts_10m raw); [| reflexivity].
  destruct (HourlySection.wind_direction_10m raw); [| reflexivity].
  destruct (HourlySection.visibility raw); [| reflexivity].
  destruct (HourlySection.weather_code raw); [| reflexivity].
  eexists. reflexivity.
Qed.

Lemma arrays_complete (h : Hourly.T) :
  arrays (HourlySection.complete h) (Hourly.time h) = Ok h.
Proof.
  destruct h. reflexivity.
Qed.

Lemma periodForecastOf_eq raw currentHour period :
  periodForecastOf raw currentHour period
  = match HourlySection.time raw with
    | None => Throw (TypeError "length")
    | Some time =>
        let i := indices (Z.of_nat (List.length time)) currentHour period in
        if snd i <=? fst i then Ok (notAvailable period)
        else match arrays raw time with
             | Ok h => Ok (summary h period (fst i) (snd i))
             | Throw m => Throw m
             end
    end.
Proof.
  unfold periodForecastOf, bind, section.
  destruct (HourlySection.time raw) as [time |]; [| reflexivity].
  cbv zeta.
  destruct (indices (Z.of_nat (List.length time)) currentHour period).
  reflexivity.
Qed.

Ltac each_period :=
  repeat
    match goal with
    | |- context [indices ?len ?hour ?period] =>
        let s := fresh "s" in
        let e := fresh "e" in
        destruct (indices len hour period) as [s e]; cbn [fst snd];
        destruct (e <=? s)
    end;
  cbn [negb orb]; try reflexivity.

(** With its arrays the section gives the four period forecasts. *)
Lemma periodForecastsOf_values raw currentHour time h :
  HourlySection.time raw = Some time -> arrays raw time = Ok h ->
  periodForecastsOf raw currentHour = Ok (periodForecasts h currentHour).
Proof.
  intros Et Ea. pose proof (arrays_time _ _ _ Ea) as Eh.
  unfold periodForecastsOf, periodForecasts, periods. cbn [mapM map].
  unfold bind. rewrite !periodForecastOf_eq, Et, Ea.
  unfold periodForecast. rewrite Eh. cbv zeta. each_period.
Qed.

(** Without one of them it throws as soon as a period is not empty. *)
Lemma periodForecastsOf_no_values raw currentHour time m :
  HourlySection.time raw = Some time -> arrays raw time = Throw m ->
  periodForecastsOf raw currentHour
  = if reads_values (Z.of_nat (List.length time)) currentHour then Throw m
    else Ok (map notAvailable periods).
Proof.
  intros Et Ea.
  unfold periodForecastsOf, reads_values, periods. cbn [mapM map existsb].
  unfold bind. rewrite !periodForecastOf_eq, Et, Ea. cbv zeta. each_period.
Qed.

Lemma periodForecastsOf_complete (h : Hourly.T) (currentHour : Z) :
  periodForecastsOf (HourlySection.complete h) currentHour
  = Ok (periodForecasts h currentHour).
Proof.
  apply (periodForecastsOf_values _ _ (Hourly.time h));
    [reflexivity | apply arrays_complete].
Qed.

Lemma periodForecastsOf_usable raw currentHour :
  if hourly_usable raw currentHour
  then exists pf, periodForecastsOf raw currentHour = Ok pf
  else exists prop, periodForecastsOf raw currentHour = Throw (TypeError prop).
Proof.
  unfold hourly_usable.
  destruct (HourlySection.time raw) as [time |] eqn:Et.
  - pose proof (arrays_values raw time) as A.
    destruct (has_values raw).
    + destruct A as [h A]. rewrite orb_true_r.
      eexists. apply (periodForecastsOf_values _ _ _ _ Et A).
    + rewrite orb_false_r, (periodForecastsOf_no_values _ _ _ _ Et A).
      destruct (reads_values _ _); cbn [negb]; eexists; reflexivity.
  - exists "length". unfold periodForecastsOf, periods. cbn [mapM].
    unfold bind. rewrite periodForecastOf_eq, Et. reflexivity.
Qed.

Lemma sunTimeOf_eq (o : option (list string)) :
  sunTimeOf o = match o with
                | Some l => Ok (sunTime l)
                | None => Throw (TypeError "0")
                end.
Proof.
  destruct o; reflexivity.
Qed.

Lemma weatherData_ok (weather : Fetched WeatherData) (w : WeatherData) :
  weatherData weather = Ok w
  <-> exists status, weather = Responded status (inr w) /\ ok status = true.
Proof.
  unfold weatherData. split.
  - destruct weather as [m | status [m | w0]]; [discriminate | |];
      destruct (ok status) eqn:E; cbn [negb]; try discriminate.
    intros [= ->]. exists status. auto.
  - intros (status & -> & ->). reflexivity.
Qed.

Lemma forecastObj_usable now weather tide water :
  usable now weather = true ->
  exists r, forecastObj now weather tide water = Ok r.
Proof.
  unfold usable.
  destruct weather as [m | status [m | w]]; try discriminate.
  destruct (ok status) eqn:Eok; [| discriminate]. cbn [andb].
  destruct (current w) as [c |] eqn:Ec; [| discriminate].
  destruct (hourly w) as [h |] eqn:Eh; [| discriminate].
  destruct (daily w) as [d |] eqn:Ed; [| discriminate].
  pose proof (periodForecastsOf_usable h (getHours now)) as P.
  destruct (hourly_usable h (getHours now)); [| discriminate].
  destruct P as [pf P].
  destruct (Daily.sunrise d) as [sr |] eqn:Esr; [| discriminate].
  destruct (Daily.sunset d) as [ss |] eqn:Ess; [| discriminate].
  intros _. eexists. apply forecastObj_ok.
  exists w, h, pf, c, d, (sunTime sr), (sunTime ss).
  split; [apply weatherData_ok; exists status; auto |].
  rewrite Esr, Ess. repeat split; assumption.
Qed.

Lemma forecastObj_usable_iff now weather tide water r :
  forecastObj now weather tide water = Ok r -> usable now weather = true.
Proof.
  intros H. apply forecastObj_ok in H.
  destruct H as (w & h & pf & c & d & sunrise & sunset
                 & Ew & Eh & Epf & Ec & Ed & Esr & Ess & _).
  apply weatherData_ok in Ew. destruct Ew as (status & -> & Eok).
  unfold usable. rewrite Eok, Ec, Eh, Ed. cbn [andb].
  pose proof (periodForecastsOf_usable h (getHours now)) as P.
  destruct (hourly_usable h (getHours now)).
  - rewrite sunTimeOf_eq in Esr, Ess.
    destruct (Daily.sunrise d); [| discriminate Esr].
    destruct (Daily.sunset d); [| discriminate Ess]. reflexivity.
  - destruct P as [prop P]. rewrite P in Epf. discriminate Epf.
Qed.

Lemma forecastObj_unusable now weather tide water :
  usable now weather = false ->
  exists m, forecastObj now weather tide water = Throw m.
Proof.
  intros U.
  destruct (forecastObj now weather tide water) as [r | m] eqn:E;
    [| exists m; reflexivity].
  rewrite (forecastObj_usable_iff _ _ _ _ _ E) in U. discriminate U.
Qed.

(** What the run throws is the error of the weather request or a
    [TypeError]. *)
Lemma forecastObj_throw now weather tide water m :
  forecastObj now weather tide water = Throw m ->
  weatherData weather = Throw m \/ exists prop, m = TypeError prop.
Proof.
  unfold forecastObj, bind.
  destruct (weatherData weather) as [w | m0];
    [| intros E; left; injection E as <-; reflexivity].
  intros E. right. revert E. unfold section.
  destruct (hourly w) as [h |];
    [| intros E; exists "time"; congruence].
  pose proof (periodForecastsOf_usable h (getHours now)) as P.
  destruct (periodForecastsOf h (getHours now)) as [pf | m1].
  - destruct (current w) as [c |];
      [| intros E; exists "temperature_2m"; congruence].
    destruct (daily w) as [d |];
      [| intros E; exists "sunrise"; congruence].
    rewrite !sunTimeOf_eq.
    destruct (Daily.sunrise d); [| intros E; exists "0"; congruence].
    destruct (Daily.sunset d); [| intros E; exists "0"; congruence].
    discriminate.
  - destruct (hourly_usable h (getHours now)); destruct P as [x P];
      [discriminate P |].
    intros E. exists x. congruence.
Qed.

(** C4, as the code has it: the run ends in the error state, and stores no
    report, exactly when the weather request is rejected, answers with a
    status that is not OK, has a body that does not parse, or delivers a
    payload without something the run dereferences: the current, hourly or
    daily section, the [time] array, a value array of the hourly section
    when a period is not empty, or the [sunrise] or [sunset] array.
    Nothing else aborts the run: with such a weather payload every outcome
    of the tide and water temperature requests gives a report.  (A payload
    that is malformed in another way is not detected.) *)
Theorem C4_only_weather_aborts
    (now : DateTime) (weather : Fetched WeatherData)
    (tide : Fetched TideData) (water : Fetched WaterTempData) (st : State) :
  (usable now weather = false ->
   exists errorMsg,
     forecastObj now weather tide water = Throw errorMsg
     /\ fetchForecast now weather tide water st
        = mkState (forecast st) false (Some errorMsg))
  /\ (usable now weather = true ->
      exists r,
        forecastObj now weather tide water = Ok r
        /\ fetchForecast now weather tide water st
           = mkState (Some r) false None).
Proof.
  split; intros H.
  - destruct (forecastObj_unusable now weather tide water H) as [m E].
    exists m. unfold fetchForecast. rewrite E. auto.
  - destruct (forecastObj_usable now weather tide water H) as [r E].
    exists r. unfold fetchForecast. rewrite E. auto.
Qed.

(** A 503 answer, an hourly section without its value arrays and a daily
    section without [sunset] end the run with an error; failed tide and
    water temperature requests do not. *)
Lemma C4_only_weather_aborts_witness :
  fetchForecast sampleNow (Responded 503 (inr sampleWeather))
    sampleTide sampleWater initial
  = mkState None false (Some "Weather API returned 503")
  /\ fetchForecast sampleNow (Responded 200 (inr bareWeather))
       sampleTide sampleWater initial
     = mkState None false (Some (TypeError "slice"))
  /\ fetchForecast sampleNow (Responded 200 (inr noSunsetWeather))
       sampleTide sampleWater initial
     = mkState None false (Some (TypeError "0"))
  /\ (exists r,
      fetchForecast sampleNow (Responded 200 (inr sampleWeather))
        (Rejected "Failed to fetch") (Rejected "Failed to fetch") initial
      = mkState (Some r) false None).
Proof.
  assert (A : forall weather m,
            usable sampleNow weather = false ->
            forecastObj sampleNow weather sampleTide sampleWater = Throw m ->
            fetchForecast sampleNow weather sampleTide sampleWater initial
            = mkState None false (Some m)).
  { intros weather m U E.
    destruct (C4_only_weather_aborts sampleNow weather sampleTide sampleWater
                initial) as [H _].
    destruct (H U) as (m' & E' & S). rewrite E in E'.
    injection E' as <-. exact S. }
  split; [| split; [| split]].
  - apply A; vm_compute; reflexivity.
  - apply A; vm_compute; reflexivity.
  - apply A; vm_compute; reflexivity.
  - destruct (C4_only_weather_aborts sampleNow
                (Responded 200 (inr sampleWeather))
                (Rejected "Failed to fetch") (Rejected "Failed to fetch")
                initial) as [_ H].
    destruct (H eq_refl) as [r [_ E]]. exists r. exact E.
Defined.

(** C4 as stated fails for a malformed payload that has every section and
    every array: hourly arrays that do not share one length, and no sunrise
    entry, give a report, with the reductions of empty slices in its
    fields. *)
Lemma C4_malformed_payload_yields_a_report :
  (hourly raggedWeather = Some (HourlySection.complete raggedHourly)
   /\ ~ same_length raggedHourly)
  /\ exists r,
      forecastObj sampleNow (Responded 200 (inr raggedWeather))
        sampleTide sampleWater = Ok r
      /\ map PeriodForecast.temp
           (Conditions.forecast (ForecastData.conditions r))
         = repeat "Infinity--Infinity°F" 4
      /\ MarineData.sunrise (ForecastData.marine r) = "Invalid Date".
Proof.
  split.
  - split; [reflexivity |].
    intros [H _]. discriminate H.
  - eexists. split; [vm_compute; reflexivity | split; reflexivity].
Qed.

Lemma tides_unavailable (tide : Fetched TideData) :
  tide_unavailable tide -> tides tide = [].
Proof.
  unfold tide_unavailable, tides, fetch_json, bind, try_catch.
  destruct tide as [m | status [m | d]]; try reflexivity.
  intros [-> | ->]; reflexivity.
Qed.

Lemma waterTemp_unavailable (water : Fetched WaterTempData) :
  water_unavailable water -> waterTemp water = "52°F".
Proof.
  unfold water_unavailable, waterTemp, fetch_json, bind, try_catch.
  destruct water as [m | status [m | d]]; try reflexivity.
  intros [-> | ->]; reflexivity.
Qed.

(** *** Fields that are never blank *)

Lemma append_nonempty_r (a b : string) : b <> "" -> a ++ b <> "".
Proof.
  intros H. destruct a; [exact H | discriminate].
Qed.

Lemma append_suffix_nonempty (a : string) (c : ascii) (b : string) :
  a ++ String c b <> "".
Proof.
  apply append_nonempty_r. discriminate.
Qed.

Lemma getWeatherDescription_nonblank (code : number) :
  getWeatherDescription code <> "".
Proof.
  unfold getWeatherDescription.
  destruct (as_integer code) as [k |]; [| discriminate].
  unfold codes. cbn [lookup].
  repeat match goal with
         | |- context [k =? ?c] => destruct (k =? c); [discriminate |]
         end.
  discriminate.
Qed.

Lemma getWindDirection_nonblank (degrees : number) :
  getWindDirection degrees <> Some "".
Proof.
  unfold getWindDirection, index_num, index.
  destruct (as_integer _) as [i |]; [| discriminate].
  destruct (i <? 0); [discriminate |].
  intros H. apply nth_error_In in H. unfold dirs in H. cbn [In] in H.
  repeat (destruct H as [H | H]; [discriminate H |]). exact H.
Qed.

Lemma waveHeight_nonblank (x : number) : waveHeight x <> "".
Proof.
  unfold waveHeight.
  destruct (ltb x (of_Z 10)); [discriminate |].
  destruct (ltb x (of_Z 15)); [discriminate |].
  destruct (ltb x (of_Z 20)); discriminate.
Qed.

Lemma toLocaleTimeString_nonblank (d : option DateTime) :
  toLocaleTimeString d <> "".
Proof.
  destruct d as [t |]; [| discriminate].
  unfold toLocaleTimeString. apply append_nonempty_r. discriminate.
Qed.

Lemma toLocaleString_nonblank (d : DateTime) : toLocaleString d <> "".
Proof.
  unfold toLocaleString.
  destruct (civil_from_days (day d)) as [[y m] dom].
  apply append_nonempty_r. discriminate.
Qed.

Lemma name_nonblank (period : Period) :
  In period periods -> name period <> "".
Proof.
  intros H.
  destruct (periods_cases _ H) as [-> | [-> | [-> | ->]]]; discriminate.
Qed.

Lemma currentConditions_populated (c : Current.T) :
  let x := currentConditions c in
  CurrentConditions.temp x <> "" /\ CurrentConditions.feelsLike x <> ""
  /\ CurrentConditions.conditions x <> ""
  /\ CurrentConditions.windSpeed x <> ""
  /\ CurrentConditions.windDir x <> Some ""
  /\ CurrentConditions.gusts x <> "" /\ CurrentConditions.pressure x <> ""
  /\ CurrentConditions.humidity x <> "".
Proof.
  unfold currentConditions.
  cbn [CurrentConditions.temp CurrentConditions.feelsLike
       CurrentConditions.conditions CurrentConditions.windSpeed
       CurrentConditions.windDir CurrentConditions.gusts
       CurrentConditions.pressure CurrentConditions.humidity].
  repeat split;
    first [apply append_suffix_nonempty
          | apply getWeatherDescription_nonblank
          | apply getWindDirection_nonblank].
Qed.

Lemma notAvailable_populated (period : Period) :
  In period periods -> period_populated (notAvailable period).
Proof.
  intros H. unfold period_populated, notAvailable.
  cbn [PeriodForecast.period PeriodForecast.temp PeriodForecast.conditions
       PeriodForecast.wind PeriodForecast.visibility
       PeriodForecast.precipitation PeriodForecast.waves].
  split; [apply name_nonblank, H | repeat split; discriminate].
Qed.

Lemma summary_populated h period startIdx endIdx :
  In period periods -> period_populated (summary h period startIdx endIdx).
Proof.
  intros H. unfold period_populated, summary, dominantWeather.
  cbn [PeriodForecast.period PeriodForecast.temp PeriodForecast.conditions
       PeriodForecast.wind PeriodForecast.visibility
       PeriodForecast.precipitation PeriodForecast.waves].
  split; [apply name_nonblank, H |].
  split; [apply append_nonempty_r, append_nonempty_r, append_suffix_nonempty |].
  split; [destruct (index _ _);
          [apply getWeatherDescription_nonblank | discriminate] |].
  split; [apply append_nonempty_r; discriminate |].
  split; [apply append_suffix_nonempty |].
  split; [apply append_suffix_nonempty | apply waveHeight_nonblank].
Qed.

Lemma periodForecastsOf_populated raw currentHour pf :
  periodForecastsOf raw currentHour = Ok pf ->
  map PeriodForecast.period pf = map name periods
  /\ Forall period_populated pf.
Proof.
  assert (A : forall f : Period -> PeriodForecast.T,
            (forall period, In period periods ->
               PeriodForecast.period (f period) = name period
               /\ period_populated (f period)) ->
            map PeriodForecast.period (map f periods) = map name periods
            /\ Forall period_populated (map f periods)).
  { intros f Hf. split.
    - rewrite map_map. apply map_ext_in. intros p Hp. apply (Hf p Hp).
    - apply Forall_forall. intros x Hx. apply in_map_iff in Hx.
      destruct Hx as (p & <- & Hp). apply (Hf p Hp). }
  destruct (HourlySection.time raw) as [time |] eqn:Et.
  - destruct (arrays raw time) as [h | m] eqn:Ea.
    + rewrite (periodForecastsOf_values _ _ _ _ Et Ea). intros [= <-].
      apply A. intros p Hp. unfold periodForecast.
      destruct (indices _ _ _) as [s e].
      destruct (e <=? s);
        [split; [reflexivity | apply notAvailable_populated, Hp]
        | split; [reflexivity | apply summary_populated, Hp]].
    + rewrite (periodForecastsOf_no_values _ _ _ _ Et Ea).
      destruct (reads_values _ _); [discriminate |]. intros [= <-].
      apply A. intros p Hp.
      split; [reflexivity | apply notAvailable_populated, Hp].
  - unfold periodForecastsOf, periods. cbn [mapM]. unfold bind.
    rewrite periodForecastOf_eq, Et. discriminate.
Qed.

Lemma report_populated now tide water c raw pf o1 o2 sunrise sunset :
  periodForecastsOf raw (getHours now) = Ok pf ->
  sunTimeOf o1 = Ok sunrise -> sunTimeOf o2 = Ok sunset ->
  populated (report now tide water c pf sunrise sunset).
Proof.
  intros Hpf H1 H2. rewrite sunTimeOf_eq in H1, H2.
  destruct o1 as [l1 |]; [| discriminate H1].
  destruct o2 as [l2 |]; [| discriminate H2].
  injection H1 as <-. injection H2 as <-.
  destruct (periodForecastsOf_populated _ _ _ Hpf) as [Hn Hf].
  destruct (currentConditions_populated c)
    as (C1 & C2 & C3 & C4 & C5 & C6 & C7 & C8).
  unfold populated, report.
  cbn [ForecastData.location ForecastData.shiftStart ForecastData.shiftEnd
       ForecastData.conditions ForecastData.marine Conditions.current
       Conditions.forecast MarineData.sunrise MarineData.sunset].
  split; [discriminate |].
  split; [apply toLocaleString_nonblank |].
  split; [apply toLocaleString_nonblank |].
  do 8 (split; [assumption |]).
  split; [exact Hn |]. split; [exact Hf |].
  split; apply toLocaleTimeString_nonblank.
Qed.

(** C5: when the weather payload is usable, the run gives a report whatever
    the tide and water temperature requests give.  The fields that come
    from the weather payload and the clock are the ones computed from them
    and none of them is blank; a tide request that fails or returns no or an
    empty prediction list leaves the tide list empty and the current
    direction and speed at "Variable"; a water temperature request that
    fails or returns no reading leaves [waterTemp] at the default 52°F; and
    neither request touches what the other one fills. *)
Theorem C5_tide_and_water_degrade
    (now : DateTime) (weather : Fetched WeatherData)
    (tide : Fetched TideData) (water : Fetched WaterTempData) :
  usable now weather = true ->
  exists r,
    forecastObj now weather tide water = Ok r
    /\ weather_derived now weather r /\ populated r
    /\ ForecastData.tides r = tides tide
    /\ MarineData.waterTemp (ForecastData.marine r) = waterTemp water
    /\ (tide_unavailable tide ->
        ForecastData.tides r = []
        /\ MarineData.currentDir (ForecastData.marine r) = "Variable"
        /\ MarineData.currentSpeed (ForecastData.marine r) = "Variable")
    /\ (water_unavailable water ->
        MarineData.waterTemp (ForecastData.marine r) = "52°F").
Proof.
  intros U. destruct (forecastObj_usable now weather tide water U) as [r E].
  exists r. split; [exact E |].
  apply forecastObj_ok in E.
  destruct E as (w & h & pf & c & d & sunrise & sunset
                 & Ew & Eh & Epf & Ec & Ed & Esr & Ess & ->).
  split; [| split; [| split; [| split; [| split]]]].
  - exists w, c, h, d. unfold report.
    cbn [ForecastData.location ForecastData.shiftStart ForecastData.shiftEnd
         ForecastData.conditions ForecastData.marine Conditions.current
         Conditions.forecast MarineData.sunrise MarineData.sunset].
    repeat split; assumption.
  - apply (report_populated _ _ _ _ _ _ _ _ _ _ Epf Esr Ess).
  - reflexivity.
  - reflexivity.
  - intros T. unfold report.
    cbn [ForecastData.tides ForecastData.marine MarineData.currentDir
         MarineData.currentSpeed].
    rewrite (tides_unavailable _ T). repeat split; reflexivity.
  - intros W. unfold report.
    cbn [ForecastData.marine MarineData.waterTemp].
    apply waterTemp_unavailable, W.
Qed.

(** On the sample payload, a rejected tide request and a water temperature
    body without readings each leave the current conditions, the four
    period forecasts and the sun times as the weather payload makes them. *)
Lemma C5_tide_and_water_degrade_witness :
  let weather_fields r :=
    Conditions.current (ForecastData.conditions r)
    = {| CurrentConditions.temp := "55°F";
         CurrentConditions.feelsLike := "50°F";
         CurrentConditions.conditions := "Overcast";
         CurrentConditions.windSpeed := "7 kt";
         CurrentConditions.windDir := Some "N";
         CurrentConditions.gusts := "12 kt";
         CurrentConditions.pressure := "29.92 inHg";
         CurrentConditions.humidity := "80%" |}
    /\ map PeriodForecast.temp
         (Conditions.forecast (ForecastData.conditions r))
       = ["50-53°F"; "54-59°F"; "60-65°F"; "66-72°F"]
    /\ map PeriodForecast.wind
         (Conditions.forecast (ForecastData.conditions r))
       = ["2 kt NNE (Gusts 8 kt)"; "7 kt E (Gusts 14 kt)";
          "13 kt S (Gusts 20 kt)"; "20 kt WNW (Gusts 27 kt)"]
    /\ map PeriodForecast.waves
         (Conditions.forecast (ForecastData.conditions r))
       = ["1-2 ft"; "1-2 ft"; "2-3 ft"; "4-6 ft"]
    /\ MarineData.sunrise (ForecastData.marine r) = "06:55"
    /\ MarineData.sunset (ForecastData.marine r) = "16:50" in
  (exists r,
      forecastObj sampleNow (Responded 200 (inr sampleWeather))
        (Rejected "Failed to fetch") sampleWater = Ok r
      /\ ForecastData.tides r = []
      /\ MarineData.currentDir (ForecastData.marine r) = "Variable"
      /\ MarineData.currentSpeed (ForecastData.marine r) = "Variable"
      /\ MarineData.waterTemp (ForecastData.marine r) = "49°F"
      /\ weather_fields r)
  /\ (exists r,
      forecastObj sampleNow (Responded 200 (inr sampleWeather))
        sampleTide (Responded 200 (inr (mkWaterTempData None))) = Ok r
      /\ List.length (ForecastData.tides r) = 4%nat
      /\ MarineData.currentDir (ForecastData.marine r) = "Flood (incoming)"
      /\ MarineData.waterTemp (ForecastData.marine r) = "52°F"
      /\ weather_fields r).
Proof.
  intros weather_fields. split.
  - destruct (C5_tide_and_water_degrade sampleNow
                (Responded 200 (inr sampleWeather))
                (Rejected "Failed to fetch") sampleWater eq_refl)
      as (r & E & _ & _ & _ & _ & T & _).
    destruct (T I) as (T1 & T2 & T3).
    exists r. split; [exact E |].
    split; [exact T1 | split; [exact T2 | split; [exact T3 |]]].
    vm_compute in E. injection E as <-.
    unfold weather_fields. repeat split; reflexivity.
  - destruct (C5_tide_and_water_degrade sampleNow
                (Responded 200 (inr sampleWeather))
                sampleTide (Responded 200 (inr (mkWaterTempData None)))
                eq_refl)
      as (r & E & _ & _ & _ & _ & _ & W).
    specialize (W (or_introl eq_refl)).
    exists r. split; [exact E |].
    vm_compute in E. injection E as <-.
    split; [reflexivity | split; [reflexivity | split; [exact W |]]].
    unfold weather_fields. repeat split; reflexivity.
Defined.

(** *** Digit strings *)

Lemma digits_only_app (a b : string) :
  digits_only (a ++ b) = digits_only a && digits_only b.
Proof.
  induction a as [| c a IH]; simpl; [reflexivity |].
  rewrite IH. apply andb_assoc.
Qed.

Lemma digits_only_uint (d : uint) :
  digits_only (NilEmpty.string_of_uint d) = true.
Proof.
  induction d; simpl; auto.
Qed.

Lemma digits_only_N (n : N) : digits_only (N_to_string n) = true.
Proof.
  unfold N_to_string, NilZero.string_of_uint.
  destruct (N.to_uint n) as [| u | u | u | u | u | u | u | u | u | u ];
    [reflexivity | ..];
    match goal with
    | |- digits_only (NilEmpty.string_of_uint ?d) = true =>
        apply (digits_only_uint d)
    end.
Qed.

Lemma N_to_string_length (n : N) : (1 <= String.length (N_to_string n))%nat.
Proof.
  unfold N_to_string, NilZero.string_of_uint.
  destruct (N.to_uint n); simpl; lia.
Qed.

Lemma digits_value_N (n : N) : digits_value (N_to_string n) = n.
Proof.
  rewrite <- (DecimalN.Unsigned.of_to n) at 2.
  unfold N_to_string, NilZero.string_of_uint, digits_value.
  destruct (N.to_uint n) as [| u | u | u | u | u | u | u | u | u | u ];
    [reflexivity | ..];
    match goal with
    | |- context [NilEmpty.uint_of_string (NilEmpty.string_of_uint ?d)] =>
        rewrite (NilEmpty.usu d); reflexivity
    end.
Qed.

Lemma span_digits_app (s r : string) :
  digits_only s = true ->
  match r with String c _ => is_digit c = false | EmptyString => True end ->
  span_digits (s ++ r) = (s, r).
Proof.
  intros Hs Hr. induction s as [| c s IH]; simpl in *.
  - destruct r as [| c r]; [reflexivity |]. simpl. rewrite Hr. reflexivity.
  - apply andb_prop in Hs. destruct Hs as [Hc Hs].
    rewrite Hc, (IH Hs). reflexivity.
Qed.

Lemma append_empty (s : string) : s ++ "" = s.
Proof.
  induction s as [| c s IH]; simpl; [| rewrite IH]; reflexivity.
Qed.

Lemma span_digits_all (s : string) :
  digits_only s = true -> span_digits s = (s, "").
Proof.
  intros H. rewrite <- (append_empty s) at 1.
  apply span_digits_app; [exact H | exact I].
Qed.

Lemma substring_none (n : nat) (s : string) : substring n 0 s = "".
Proof.
  revert n. induction s as [| c s IH]; intros [| n]; simpl; auto.
Qed.

Lemma substring_all (s : string) : substring 0 (String.length s) s = s.
Proof.
  induction s as [| c s IH]; simpl; [| rewrite IH]; reflexivity.
Qed.

Lemma substring_length (n m : nat) (s : string) :
  String.length (substring n m s) = Nat.min m (String.length s - n).
Proof.
  revert n m. induction s as [| c s IH]; intros n m.
  - destruct n, m; reflexivity.
  - destruct n as [| n].
    + destruct m as [| m]; [reflexivity |]. simpl. rewrite IH.
      rewrite Nat.sub_0_r. reflexivity.
    + simpl. apply IH.
Qed.

Lemma digits_only_substring (n m : nat) (s : string) :
  digits_only s = true -> digits_only (substring n m s) = true.
Proof.
  revert n m. induction s as [| c s IH]; intros n m H.
  - destruct n, m; reflexivity.
  - simpl in H. apply andb_prop in H. destruct H as [Hc Hs].
    destruct n as [| n].
    + destruct m as [| m]; [reflexivity |]. simpl. rewrite Hc. simpl.
      apply IH, Hs.
    + simpl. apply IH, Hs.
Qed.

Lemma digits_only_repeat0 (k : nat) : digits_only (repeat0 k) = true.
Proof.
  induction k; simpl; auto.
Qed.

Lemma repeat0_length (k : nat) : String.length (repeat0 k) = k.
Proof.
  induction k; simpl; auto.
Qed.

Lemma append_length (a b : string) :
  String.length (a ++ b) = (String.length a + String.length b)%nat.
Proof.
  induction a as [| c a IH]; simpl; [| rewrite IH]; reflexivity.
Qed.

Lemma append_assoc (a b c : string) : (a ++ b) ++ c = a ++ (b ++ c).
Proof.
  induction a as [| x a IH]; simpl; [| rewrite IH]; reflexivity.
Qed.

Lemma strip_minus_digit (c : ascii) (r : string) :
  is_digit c = true -> strip_minus (String c r) = String c r.
Proof.
  destruct c as [[|] [|] [|] [|] [|] [|] [|] [|]];
    intros H; try discriminate H; reflexivity.
Qed.

(** *** [toFixed] *)

Lemma toFixed_shape (f : nat) (q : Q) :
  Qfloor (Qabs q) < ten21 ->
  exists ip fp,
    toFixed f (Num q)
    = (if is_neg q then "-" else "")
        ++ ip ++ (if Nat.eqb f 0 then "" else "." ++ fp)
    /\ digits_only ip = true /\ (1 <= String.length ip)%nat
    /\ digits_only fp = true /\ String.length fp = f.
Proof.
  intros Hq. unfold toFixed.
  destruct (ten21 <=? Qfloor (Qabs q)) eqn:E; [apply Z.leb_le in E; lia |].
  set (n := Z.to_N _).
  set (ds := repeat0 (S f - String.length (N_to_string n)) ++ N_to_string n).
  assert (Hd : digits_only ds = true).
  { unfold ds. rewrite digits_only_app, digits_only_repeat0, digits_only_N.
    reflexivity. }
  assert (Hl : (S f <= String.length ds)%nat).
  { unfold ds. rewrite append_length, repeat0_length.
    pose proof (N_to_string_length n). lia. }
  unfold split_last.
  exists (substring 0 (String.length ds - f) ds),
    (substring (String.length ds - f) f ds).
  split; [reflexivity |].
  rewrite !substring_length, !digits_only_substring by exact Hd.
  repeat split; lia.
Qed.

Lemma one_decimal_toFixed (q : Q) :
  Qfloor (Qabs q) < ten21 ->
  one_decimal_ft (toFixed 1 (Num q) ++ " ft") = true.
Proof.
  intros Hq.
  destruct (toFixed_shape 1 q Hq) as (ip & fp & -> & Hip & Lip & Hfp & Lfp).
  destruct fp as [| d [| d' fp]]; try discriminate Lfp.
  simpl in Hfp. rewrite andb_true_r in Hfp.
  destruct ip as [| c ip]; [simpl in Lip; lia |].
  assert (Hc : is_digit c = true).
  { simpl in Hip. apply andb_prop in Hip. tauto. }
  assert (E : strip_minus
                (((if is_neg q then "-" else "")
                    ++ String c ip ++ "." ++ String d "") ++ " ft")
              = String c ip ++ String "." (String d " ft")).
  { destruct (is_neg q); cbn [append].
    - unfold strip_minus. rewrite append_assoc. reflexivity.
    - rewrite strip_minus_digit by exact Hc. rewrite append_assoc.
      reflexivity. }
  unfold one_decimal_ft. cbn [Nat.eqb]. rewrite E.
  rewrite span_digits_app; [| exact Hip | reflexivity].
  cbn [String.eqb negb andb]. rewrite Hfp. reflexivity.
Qed.

(** *** Times of day *)

Lemma Z_range_forallb (P : Z -> bool) (n : nat) :
  forallb (fun i => P (Z.of_nat i)) (seq 0 n) = true ->
  forall z, 0 <= z < Z.of_nat n -> P z = true.
Proof.
  intros H z Hz. rewrite forallb_forall in H.
  rewrite <- (Z2Nat.id z) by lia. apply H, in_seq. lia.
Qed.

Lemma is_HHMM_pad2 (h m : Z) :
  0 <= h <= 23 -> 0 <= m <= 59 ->
  is_HHMM (pad2 h ++ ":" ++ pad2 m) = true.
Proof.
  intros Hh Hm.
  apply (Z_range_forallb (fun m => is_HHMM (pad2 h ++ ":" ++ pad2 m)) 60);
    [| lia].
  apply (Z_range_forallb
           (fun h => forallb
                       (fun i => is_HHMM (pad2 h ++ ":" ++ pad2 (Z.of_nat i)))
                       (seq 0 60)) 24); [| lia].
  vm_compute. reflexivity.
Qed.

Lemma field_nonneg (s : string) (start len : nat) (z : Z) :
  field s start len = Some z -> 0 <= z.
Proof.
  unfold field. destruct (_ && _); [| discriminate].
  intros [= <-]. lia.
Qed.

Lemma Date_parse_time_of_day (s : string) (d : DateTime) :
  Date_parse s = Some d ->
  0 <= hours d <= 23 /\ 0 <= minutes d <= 59.
Proof.
  unfold Date_parse.
  destruct (_ && _); [| discriminate].
  destruct (field s 0 4) as [y |]; [| discriminate].
  destruct (field s 5 2) as [m |]; [| discriminate].
  destruct (field s 8 2) as [dd |]; [| discriminate].
  destruct (field s 11 2) as [h |] eqn:Eh; [| discriminate].
  destruct (field s 14 2) as [mi |] eqn:Em; [| discriminate].
  match goal with
  | |- context [if ?c then Some 0 else ?f] =>
      destruct (if c then Some 0 else f) as [sec |]; [| discriminate]
  end.
  destruct (_ && _) eqn:E; [| discriminate].
  intros [= <-]. simpl.
  apply field_nonneg in Eh, Em.
  repeat (apply andb_prop in E; destruct E as [E ?]).
  lia.
Qed.

Lemma is_HHMM_toLocaleTimeString (s : string) :
  Date_parse s <> None -> is_HHMM (toLocaleTimeString (Date_parse s)) = true.
Proof.
  destruct (Date_parse s) as [d |] eqn:E; [| congruence].
  intros _. destruct (Date_parse_time_of_day s d E).
  apply is_HHMM_pad2; assumption.
Qed.

(** *** The tide normaliser *)

Lemma tides_length (tide : Fetched TideData) :
  (List.length (tides tide) <= 4)%nat.
Proof.
  destruct tide as [m | status [m | [[ps |]]]];
    try (cbn; lia).
  rewrite tides_of_predictions, length_map, length_firstn. lia.
Qed.

(** C8, as the code has it: whatever the tide request gives, the normaliser
    returns at most 4 events; from a prediction list it returns the events
    of the first four predictions, in the order of the list; each event has
    a kind "High" or "Low"; its time is written HH:MM between 00:00 and
    23:59 when the time stamp is a date the host reads, and its height with
    one decimal followed by the unit ft when the value is a number.  (No
    prediction is checked: see the counterexample.) *)
Theorem C8_tide_normalizer :
  (forall tide, (List.length (tides tide) <= 4)%nat)
  /\ (forall status ps,
        let out := tides (Responded status (inr (mkTideData (Some ps)))) in
        out = map formatTide (firstn 4 ps)
        /\ (forall i p, (i < 4)%nat -> nth_error ps i = Some p ->
              nth_error out i = Some (formatTide p)))
  /\ (forall p,
        (Tide.type (formatTide p) = "High" \/ Tide.type (formatTide p) = "Low")
        /\ (Date_parse (Prediction.t p) <> None ->
            is_HHMM (Tide.time (formatTide p)) = true)
        /\ (numeric (Prediction.v p) ->
            one_decimal_ft (Tide.height (formatTide p)) = true)).
Proof.
  split; [exact tides_length | split].
  - intros status ps out. subst out. rewrite tides_of_predictions.
    split; [reflexivity |].
    intros i p Hi Hp. rewrite nth_error_map, nth_error_firstn.
    destruct (Nat.ltb_spec i 4); [| lia]. rewrite Hp. reflexivity.
  - intros p. split; [| split].
    + rewrite formatTide_type.
      destruct (String.eqb (Prediction.type p) "H"); auto.
    + apply is_HHMM_toLocaleTimeString.
    + intros (q & Hq & Hb). unfold formatTide. cbn [Tide.height].
      rewrite Hq. apply one_decimal_toFixed.
      unfold ten21. lia.
Qed.

Lemma C8_tide_normalizer_witness :
  tides sampleTide
  = [ Tide.mk "03:24" "Low" "-1.2 ft"; Tide.mk "09:24" "High" "10.3 ft";
      Tide.mk "15:00" "Low" "3.0 ft"; Tide.mk "21:24" "High" "10.0 ft" ]
  /\ forallb (fun x => is_HHMM (Tide.time x) && one_decimal_ft (Tide.height x))
       (tides sampleTide) = true.
Proof.
  destruct C8_tide_normalizer as (_ & H & F).
  destruct (H 200 samplePredictions) as [-> _].
  split; [reflexivity |].
  cbn [firstn samplePredictions map forallb].
  repeat
    match goal with
    | |- context [is_HHMM (Tide.time (formatTide ?p))] =>
        let Ht := fresh in
        let Hv := fresh in
        destruct (F p) as (_ & Ht & Hv);
        rewrite Ht by (vm_compute; discriminate);
        rewrite Hv by (eexists; split; [vm_compute; reflexivity
                                       | vm_compute; reflexivity])
    end.
  reflexivity.
Defined.

(** C8 as stated fails for a prediction that cannot be read: with an empty
    time stamp and an empty value the event is kept, its time is the text
    "Invalid Date", not HH:MM, and its height "NaN ft", not a one-decimal
    number. *)
Lemma C8_unreadable_prediction_is_kept :
  let raw := [ Prediction.mk "" "H" "" ] in
  let out := tides (Responded 200 (inr (mkTideData (Some raw)))) in
  out = [ Tide.mk "Invalid Date" "High" "NaN ft" ]
  /\ forallb (fun x => is_HHMM (Tide.time x)) out = false
  /\ forallb (fun x => one_decimal_ft (Tide.height x)) out = false.
Proof.
  vm_compute. repeat split.
Qed.

(** *** The wave-height bucket *)

Lemma Qfloor_nonneg (x : Q) : (0 <= x)%Q -> 0 <= Qfloor x.
Proof.
  intros H. change 0 with (Qfloor 0). apply Qfloor_resp_le, H.
Qed.





Lemma is_neg_spec (q : Q) : is_neg q = true <-> (q < 0)%Q.
Proof.
  unfold is_neg, Qlt. simpl. rewrite Z.mul_1_r. apply Z.ltb_lt.
Qed.

Lemma fold_add_Num (qs : list Q) (a : Q) :
  fold_left add (map Num qs) (Num a) = Num (fold_left Qplus qs a).
Proof.
  revert a. induction qs as [| q qs IH]; intros a; simpl; [reflexivity |].
  apply IH.
Qed.

Lemma average_Num (qs : list Q) :
  qs <> [] ->
  div (sum (map Num qs)) (length_of (map Num qs)) = Num (mean qs).
Proof.
  intros Hne. unfold sum, length_of, of_Z.
  rewrite fold_add_Num, length_map. unfold div, is_zero. cbn [Qnum inject_Z].
  destruct (Z.eqb_spec (Z.of_nat (List.length qs)) 0) as [E | E].
  - destruct qs; [congruence | simpl in E; lia].
  - reflexivity.
Qed.



(** ** Further properties of the code *)

(** *** Which hours the four periods aggregate *)

Lemma indices_of_periods (len currentHour : Z) :
  indices len currentHour morning
  = (Z.max 0 (8 - currentHour), Z.min (len - 1) (12 - currentHour))
  /\ indices len currentHour afternoon
     = (Z.max 0 (12 - currentHour), Z.min (len - 1) (18 - currentHour))
  /\ indices len currentHour evening
     = (Z.max 0 (18 - currentHour), Z.min (len - 1) (24 - currentHour))
  /\ indices len currentHour night
     = (Z.max 0 (24 - currentHour + 0), Z.min (len - 1) (24 - currentHour + 8)).
Proof.
  repeat split; reflexivity.
Qed.

Ltac period_cases H :=
  destruct (periods_cases _ H) as [-> | [-> | [-> | ->]]].

Ltac indices_explicit len currentHour :=
  destruct (indices_of_periods len currentHour) as (Im & Ia & Ie & In_);
  rewrite ?Im, ?Ia, ?Ie, ?In_ in *; cbn [fst snd] in *;
  clear Im Ia Ie In_.

(** X1: over a series of at least 33 hourly entries (the feed sends 168)
    and for every [currentHour] from 0 to 23, an entry is aggregated in some
    period exactly when its index lies from [max(0, 8 - currentHour)] up to,
    not including, [32 - currentHour]: from 08:00 on, the hours from now to
    the next 08:00; before 08:00, the first [8 - currentHour] entries are in
    no period. *)
Theorem X1_hours_covered (len currentHour i : Z) :
  33 <= len -> 0 <= currentHour <= 23 ->
  (exists period, In period periods /\ covers len currentHour period i)
  <-> Z.max 0 (8 - currentHour) <= i < 32 - currentHour.
Proof.
  intros Hlen Hch. unfold covers. split.
  - intros (period & Hin & Hc).
    period_cases Hin; indices_explicit len currentHour; lia.
  - intros Hi.
    destruct (Z_lt_le_dec i (12 - currentHour));
      [exists morning |
       destruct (Z_lt_le_dec i (18 - currentHour));
       [exists afternoon |
        destruct (Z_lt_le_dec i (24 - currentHour));
        [exists evening | exists night]]];
      (split; [unfold periods, morning, afternoon, evening, night;
               simpl; tauto | indices_explicit len currentHour; lia]).
Qed.

Lemma X1_hours_covered_witness :
  (exists period, In period periods /\ covers 168 3 period 5)
  /\ ~ (exists period, In period periods /\ covers 168 3 period 4).
Proof.
  split.
  - apply (X1_hours_covered 168 3 5); lia.
  - intros H. apply (X1_hours_covered 168 3 4) in H; lia.
Defined.

(** X2: whatever the length of the series and the current hour, no hourly
    entry is aggregated in two periods. *)
Theorem X2_periods_disjoint (len currentHour i : Z) (p q : Period) :
  In p periods -> In q periods ->
  covers len currentHour p i -> covers len currentHour q i -> p = q.
Proof.
  unfold covers. intros Hp Hq Cp Cq.
  period_cases Hp; period_cases Hq; try reflexivity;
    indices_explicit len currentHour; lia.
Qed.

Lemma X2_periods_disjoint_witness :
  covers 24 8 night 16 /\ ~ covers 24 8 evening 16.
Proof.
  assert (Hn : covers 24 8 night 16).
  { unfold covers. indices_explicit 24 8. lia. }
  split; [exact Hn |]. intros He.
  assert (E : night = evening).
  { apply (X2_periods_disjoint 24 8 16 night evening);
      try assumption; simpl; tauto. }
  discriminate E.
Defined.

Lemma waveHeight_not_NA (x : number) : waveHeight x <> "N/A".
Proof.
  unfold waveHeight.
  destruct (ltb x (of_Z 10)); [discriminate |].
  destruct (ltb x (of_Z 15)); [discriminate |].
  destruct (ltb x (of_Z 20)); discriminate.
Qed.

Lemma periodForecast_NA_iff (h : Hourly.T) (currentHour : Z) (period : Period) :
  let len := Z.of_nat (List.length (Hourly.time h)) in
  periodForecast h currentHour period = notAvailable period
  <-> snd (indices len currentHour period)
      <= fst (indices len currentHour period).
Proof.
  intros len. unfold periodForecast. fold len.
  destruct (indices len currentHour period) as [s e]. cbn [fst snd].
  destruct (Z.leb_spec e s) as [L | L].
  - tauto.
  - split; [| lia].
    intros H. exfalso.
    apply (f_equal PeriodForecast.waves) in H.
    unfold summary in H. cbn [PeriodForecast.waves notAvailable] in H.
    exact (waveHeight_not_NA _ H).
Qed.

(** X3: over a series of at least 33 hourly entries, the Morning forecast
    is the N/A summary exactly from 12:00 on and the Afternoon forecast
    exactly from 18:00 on, while the Evening and Night forecasts are never
    N/A; the report always lists the four periods, in the order Morning,
    Afternoon, Evening, Night. *)
Theorem X3_when_a_period_is_not_available (h : Hourly.T) (currentHour : Z) :
  33 <= Z.of_nat (List.length (Hourly.time h)) ->
  0 <= currentHour <= 23 ->
  (periodForecast h currentHour morning = notAvailable morning
   <-> 12 <= currentHour)
  /\ (periodForecast h currentHour afternoon = notAvailable afternoon
      <-> 18 <= currentHour)
  /\ periodForecast h currentHour evening <> notAvailable evening
  /\ periodForecast h currentHour night <> notAvailable night
  /\ map PeriodForecast.period (periodForecasts h currentHour)
     = map name periods.
Proof.
  intros Hlen Hch.
  rewrite !periodForecast_NA_iff.
  indices_explicit (Z.of_nat (List.length (Hourly.time h))) currentHour.
  repeat split; try lia.
  unfold periodForecasts, periods. cbn [map].
  repeat f_equal;
    match goal with
    | |- PeriodForecast.period (periodForecast ?h ?c ?p) = _ =>
        unfold periodForecast;
        destruct (indices (Z.of_nat (List.length (Hourly.time h))) c p)
          as [s e];
        destruct (e <=? s); reflexivity
    end.
Qed.

Lemma X3_when_a_period_is_not_available_witness :
  let h := Hourly.mk (repeat "" 168) [] [] [] [] [] [] [] in
  periodForecast h 14 morning = notAvailable morning
  /\ periodForecast h 14 afternoon <> notAvailable afternoon.
Proof.
  intro h.
  destruct (X3_when_a_period_is_not_available h 14) as (Hm & Ha & _).
  - vm_compute. discriminate.
  - lia.
  - split; [apply Hm; lia |]. intros E. apply Ha in E. lia.
Defined.

(** *** The shift window and the present *)

(** X4: for every valid [now], the shift window contains it:
    [shiftStart <= now < shiftEnd]. *)
Theorem X4_now_in_shift_window (now : DateTime) :
  valid_time now ->
  wallClock (shiftStart now) <= wallClock now < wallClock (shiftEnd now).
Proof.
  unfold valid_time, shiftEnd, shiftStart, wallClock, getHours, setHours,
    addDays.
  intros (Hh & Hm & Hs & Hms).
  destruct (hours now <? 8) eqn:E; cbn [day hours minutes seconds millis];
    lia.
Qed.

Lemma X4_now_in_shift_window_witness :
  wallClock (shiftStart sampleNow) <= wallClock sampleNow
  < wallClock (shiftEnd sampleNow).
Proof.
  apply X4_now_in_shift_window. unfold valid_time, sampleNow; simpl. lia.
Defined.

(** *** The extremes of a slice *)

Lemma ltb_Num_Num (x y : Q) : ltb (Num x) (Num y) = true <-> (x < y)%Q.
Proof.
  unfold ltb. rewrite Qlt_alt. destruct (x ?= y)%Q; split; congruence.
Qed.

Lemma fold_min2_Num (qs : list Q) (a : Q) :
  exists m,
    fold_left min2 (map Num qs) (Num a) = Num m
    /\ In m (a :: qs) /\ (forall q, In q (a :: qs) -> (m <= q)%Q).
Proof.
  revert a. induction qs as [| q qs IH]; intros a.
  - exists a. simpl. repeat split; auto.
    intros q [<- | []]. apply Qle_refl.
  - cbn [map fold_left].
    change (min2 (Num a) (Num q))
      with (if ltb (Num q) (Num a) then Num q else Num a).
    destruct (ltb (Num q) (Num a)) eqn:E.
    + apply ltb_Num_Num in E.
      destruct (IH q) as (m & -> & Hin & Hle).
      exists m. split; [reflexivity | split].
      * destruct Hin as [<- | Hin]; simpl; auto.
      * intros x [<- | [<- | Hx]].
        -- apply Qle_trans with q; [apply Hle; simpl; auto |].
           apply Qlt_le_weak, E.
        -- apply Hle; simpl; auto.
        -- apply Hle; simpl; auto.
    + assert (L : (a <= q)%Q).
      { apply Qnot_lt_le. intros H. apply ltb_Num_Num in H. congruence. }
      destruct (IH a) as (m & -> & Hin & Hle).
      exists m. split; [reflexivity | split].
      * destruct Hin as [<- | Hin]; simpl; auto.
      * intros x [<- | [<- | Hx]].
        -- apply Hle; simpl; auto.
        -- apply Qle_trans with a; [apply Hle; simpl; auto | exact L].
        -- apply Hle; simpl; auto.
Qed.

Lemma fold_max2_Num (qs : list Q) (a : Q) :
  exists m,
    fold_left max2 (map Num qs) (Num a) = Num m
    /\ In m (a :: qs) /\ (forall q, In q (a :: qs) -> (q <= m)%Q).
Proof.
  revert a. induction qs as [| q qs IH]; intros a.
  - exists a. simpl. repeat split; auto.
    intros q [<- | []]. apply Qle_refl.
  - cbn [map fold_left].
    change (max2 (Num a) (Num q))
      with (if ltb (Num a) (Num q) then Num q else Num a).
    destruct (ltb (Num a) (Num q)) eqn:E.
    + apply ltb_Num_Num in E.
      destruct (IH q) as (m & -> & Hin & Hle).
      exists m. split; [reflexivity | split].
      * destruct Hin as [<- | Hin]; simpl; auto.
      * intros x [<- | [<- | Hx]].
        -- apply Qle_trans with q; [apply Qlt_le_weak, E |].
           apply Hle; simpl; auto.
        -- apply Hle; simpl; auto.
        -- apply Hle; simpl; auto.
    + assert (L : (q <= a)%Q).
      { apply Qnot_lt_le. intros H. apply ltb_Num_Num in H. congruence. }
      destruct (IH a) as (m & -> & Hin & Hle).
      exists m. split; [reflexivity | split].
      * destruct Hin as [<- | Hin]; simpl; auto.
      * intros x [<- | [<- | Hx]].
        -- apply Hle; simpl; auto.
        -- apply Qle_trans with a; [exact L | apply Hle; simpl; auto].
        -- apply Hle; simpl; auto.
Qed.

(** [Math.min] of a non-empty list of finite numbers is its least element. *)
Lemma Math_min_Num (qs : list Q) :
  qs <> [] ->
  exists m, Math_min (map Num qs) = Num m
            /\ In m qs /\ (forall q, In q qs -> (m <= q)%Q).
Proof.
  destruct qs as [| q qs]; [congruence | intros _].
  unfold Math_min. cbn [map fold_left].
  change (min2 PosInf (Num q)) with (Num q).
  apply fold_min2_Num.
Qed.

(** [Math.max] of a non-empty list of finite numbers is its greatest
    element. *)
Lemma Math_max_Num (qs : list Q) :
  qs <> [] ->
  exists m, Math_max (map Num qs) = Num m
            /\ In m qs /\ (forall q, In q qs -> (q <= m)%Q).
Proof.
  destruct qs as [| q qs]; [congruence | intros _].
  unfold Math_max. cbn [map fold_left].
  change (max2 NegInf (Num q)) with (Num q).
  apply fold_max2_Num.
Qed.

Lemma round_half_up_monotone (x y : Q) :
  (x <= y)%Q -> round_half_up x <= round_half_up y.
Proof.
  intros H. unfold round_half_up. apply Qfloor_resp_le. lra.
Qed.

(** X5: for a slice of finite temperatures that is not empty, the range of
    the summary is [lo-hi°F] where [lo] and [hi] are the least and the
    greatest temperature of the slice, each rounded to the nearest integer
    (a tie going up); every temperature of the slice lies between the two,
    and the rounded bounds are in order. *)
Theorem X5_temperature_range
    (h : Hourly.T) (period : Period) (startIdx endIdx : Z) (qs : list Q) :
  slice (Hourly.temperature_2m h) startIdx endIdx = map Num qs ->
  qs <> [] ->
  exists lo hi,
    In lo qs /\ In hi qs
    /\ (forall q, In q qs -> (lo <= q <= hi)%Q)
    /\ round_half_up lo <= round_half_up hi
    /\ PeriodForecast.temp (summary h period startIdx endIdx)
       = Number_toString (of_Z (round_half_up lo)) ++ "-"
           ++ Number_toString (of_Z (round_half_up hi)) ++ "°F".
Proof.
  intros Hs Hne.
  destruct (Math_min_Num qs Hne) as (lo & Elo & Ilo & Hlo).
  destruct (Math_max_Num qs Hne) as (hi & Ehi & Ihi & Hhi).
  exists lo, hi. repeat split; auto.
  - apply round_half_up_monotone, Hlo, Ihi.
  - unfold summary. cbn [PeriodForecast.temp]. rewrite Hs, Elo, Ehi.
    reflexivity.
Qed.

Lemma X5_temperature_range_witness :
  PeriodForecast.temp (summary sampleHourly evening 10 16) = "60-65°F".
Proof.
  destruct (X5_temperature_range sampleHourly evening 10 16
              (map inject_Z [60; 61; 62; 63; 64; 65]))
    as (lo & hi & Ilo & Ihi & B & _ & ->).
  - reflexivity.
  - discriminate.
  - assert (Elo : (lo == 60)%Q).
    { apply Qle_antisym; [apply (B 60%Q); simpl; auto |].
      simpl in Ilo. repeat (destruct Ilo as [<- | Ilo]; [discriminate |]).
      contradiction. }
    assert (Ehi : (hi == 65)%Q).
    { apply Qle_antisym; [| apply (B 65%Q); simpl; tauto].
      simpl in Ihi. repeat (destruct Ihi as [<- | Ihi]; [discriminate |]).
      contradiction. }
    unfold round_half_up.
    rewrite (Qfloor_comp _ _ (Qplus_comp _ _ Elo _ _ (Qeq_refl (1 # 2)))).
    rewrite (Qfloor_comp _ _ (Qplus_comp _ _ Ehi _ _ (Qeq_refl (1 # 2)))).
    reflexivity.
Defined.

(** X6: for slices of finite values that are not empty, the summary shows
    the greatest precipitation probability of the slice, the least
    visibility of the slice converted to miles, and, at the end of the wind
    field, the greatest gust of the slice. *)
Theorem X6_worst_hours
    (h : Hourly.T) (period : Period) (startIdx endIdx : Z)
    (precips gusts vis : list Q) :
  slice (Hourly.precipitation_probability h) startIdx endIdx
  = map Num precips ->
  slice (Hourly.wind_gusts_10m h) startIdx endIdx = map Num gusts ->
  slice (Hourly.visibility h) startIdx endIdx = map Num vis ->
  precips <> [] -> gusts <> [] -> vis <> [] ->
  exists maxPrecip maxGust minVis,
    (In maxPrecip precips /\ forall q, In q precips -> (q <= maxPrecip)%Q)
    /\ (In maxGust gusts /\ forall q, In q gusts -> (q <= maxGust)%Q)
    /\ (In minVis vis /\ forall q, In q vis -> (minVis <= q)%Q)
    /\ PeriodForecast.precipitation (summary h period startIdx endIdx)
       = Number_toString (Num maxPrecip) ++ "%"
    /\ PeriodForecast.visibility (summary h period startIdx endIdx)
       = metersToMiles (Num minVis) ++ " mi"
    /\ exists front,
        PeriodForecast.wind (summary h period startIdx endIdx)
        = front ++ " (Gusts " ++ toFixed 0 (Num maxGust) ++ " kt)".
Proof.
  intros Hp Hg Hv Np Ng Nv.
  destruct (Math_max_Num precips Np) as (mp & Ep & Ip & Bp).
  destruct (Math_max_Num gusts Ng) as (mg & Eg & Ig & Bg).
  destruct (Math_min_Num vis Nv) as (mv & Ev & Iv & Bv).
  exists mp, mg, mv.
  unfold summary.
  cbn [PeriodForecast.precipitation PeriodForecast.visibility
       PeriodForecast.wind].
  rewrite Hp, Hg, Hv, Ep, Eg, Ev.
  repeat split; auto.
  eexists. rewrite <- !append_assoc. reflexivity.
Qed.

Lemma X6_worst_hours_witness :
  PeriodForecast.precipitation (summary sampleHourly evening 10 16) = "30%"
  /\ PeriodForecast.visibility (summary sampleHourly evening 10 16)
     = "6.8 mi".
Proof.
  destruct (X6_worst_hours sampleHourly evening 10 16
              (map inject_Z [20; 22; 24; 26; 28; 30])
              (map inject_Z [15; 16; 17; 18; 19; 20])
              (map inject_Z [11000; 11100; 11200; 11300; 11400; 11500]))
    as (mp & mg & mv & _ & _ & _ & Hp & Hv & _);
    try reflexivity; try discriminate.
  split; reflexivity.
Defined.

(** *** Compass points *)

Lemma Qfloor_eq (y : Q) (k : Z) :
  (inject_Z k <= y)%Q -> (y < inject_Z k + 1)%Q -> Qfloor y = k.
Proof.
  intros H1 H2.
  pose proof (Qfloor_le y) as F1. pose proof (Qlt_floor y) as F2.
  rewrite inject_Z_plus in F2. change (inject_Z 1) with 1%Q in F2.
  assert (A : (inject_Z (Qfloor y) < inject_Z (k + 1))%Q).
  { rewrite inject_Z_plus. change (inject_Z 1) with 1%Q. lra. }
  assert (B : (inject_Z k < inject_Z (Qfloor y + 1))%Q).
  { rewrite inject_Z_plus. change (inject_Z 1) with 1%Q. lra. }
  rewrite <- Zlt_Qlt in A, B. lia.
Qed.

Lemma as_integer_Qeq (q : Q) (k : Z) :
  (q == inject_Z k)%Q -> as_integer (Num q) = Some k.
Proof.
  intros H. rewrite <- (as_integer_of_Z k). unfold as_integer, of_Z.
  rewrite (Qred_complete _ _ H). reflexivity.
Qed.

Lemma truncate_div_16 (r : Z) :
  truncate (inject_Z r / inject_Z 16) = Z.quot r 16.
Proof.
  unfold truncate, is_neg, Qceiling, Qfloor, Qdiv, Qmult, Qinv, Qopp,
    inject_Z. cbn [Qnum Qden Z.mul Pos.mul].
  rewrite Z.mul_1_r.
  destruct (Z.ltb_spec r 0); Z.to_euclidean_division_equations; lia.
Qed.

Lemma rem_16 (r : Z) :
  as_integer (rem (of_Z r) (of_Z 16)) = Some (Z.rem r 16).
Proof.
  unfold rem, of_Z. change (is_zero (inject_Z 16)) with false. cbv iota.
  apply as_integer_Qeq. rewrite truncate_div_16.
  unfold Qminus. rewrite <- inject_Z_mult, <- inject_Z_opp, <- inject_Z_plus.
  apply inject_Z_injective.
  Z.to_euclidean_division_equations; lia.
Qed.

Lemma getWindDirection_rounded (d : Q) :
  getWindDirection (Num d)
  = index dirs (Z.rem (round_half_up (d / (45 # 2))) 16).
Proof.
  unfold getWindDirection, index_num.
  change (Math_round (div (Num d) (Num (45 # 2))))
    with (of_Z (round_half_up (d / (45 # 2)))).
  rewrite rem_16. reflexivity.
Qed.

Lemma compass_sector (d : Q) (k : Z) :
  0 <= k <= 16 ->
  (inject_Z k * (45 # 2) - (45 # 4) <= d)%Q ->
  (d < inject_Z k * (45 # 2) + (45 # 4))%Q ->
  getWindDirection (Num d) = nth_error dirs (Z.to_nat (k mod 16)).
Proof.
  intros Hk H1 H2. rewrite getWindDirection_rounded.
  assert (E : round_half_up (d / (45 # 2)) = k).
  { unfold round_half_up, Qdiv. change (/ (45 # 2))%Q with (2 # 45)%Q.
    apply Qfloor_eq; lra. }
  rewrite E, Z.rem_mod_nonneg by lia.
  unfold index.
  destruct (Z.ltb_spec (k mod 16) 0) as [L | L]; [| reflexivity].
  pose proof (Z.mod_pos_bound k 16). lia.
Qed.

Lemma compass_defined (d : Q) :
  (- (45 # 4) <= d)%Q ->
  exists point, getWindDirection (Num d) = Some point /\ In point dirs.
Proof.
  intros Hd. rewrite getWindDirection_rounded.
  set (r := round_half_up (d / (45 # 2))).
  assert (Hr : 0 <= r).
  { unfold r, round_half_up, Qdiv. change (/ (45 # 2))%Q with (2 # 45)%Q.
    apply Qfloor_nonneg. lra. }
  rewrite Z.rem_mod_nonneg by lia.
  pose proof (Z.mod_pos_bound r 16 ltac:(lia)) as Hm.
  destruct (index_inside dirs (r mod 16)) as [point Hp];
    [change (List.length dirs) with 16%nat; lia |].
  exists point. split; [exact Hp |].
  unfold index in Hp. destruct (r mod 16 <? 0); [discriminate |].
  eapply nth_error_In, Hp.
Qed.

(** X7: a finite bearing within 11.25 degrees of [22.5 k], for [k] from 0
    to 16, is the [k]-th of the 16 compass points, 360 degrees wrapping to
    N; and every finite bearing from -11.25 degrees on has a compass
    point. *)
Theorem X7_compass_sectors :
  (forall (d : Q) (k : Z),
      0 <= k <= 16 ->
      (inject_Z k * (45 # 2) - (45 # 4) <= d)%Q ->
      (d < inject_Z k * (45 # 2) + (45 # 4))%Q ->
      getWindDirection (Num d) = nth_error dirs (Z.to_nat (k mod 16)))
  /\ (forall d : Q,
        (- (45 # 4) <= d)%Q ->
        exists point, getWindDirection (Num d) = Some point /\ In point dirs).
Proof.
  split; [exact compass_sector | exact compass_defined].
Qed.

Lemma X7_compass_sectors_witness :
  getWindDirection (Num 350) = Some "N"
  /\ getWindDirection (Num (2255 # 10)) = Some "SW".
Proof.
  destruct X7_compass_sectors as [H _].
  split.
  - apply (H 350%Q 16); [lia | discriminate | reflexivity].
  - apply (H (2255 # 10) 10); [lia | discriminate | reflexivity].
Defined.

(** X8: a bearing below -11.25 degrees (down to -348.75) has no compass
    point: the index is negative, the lookup is [undefined], and a wind
    field prints it as "undefined". *)
Theorem X8_negative_bearing_undefined (d : Q) :
  (- (1395 # 4) <= d)%Q -> (d < - (45 # 4))%Q ->
  getWindDirection (Num d) = None
  /\ show (getWindDirection (Num d)) = "undefined".
Proof.
  intros H1 H2.
  assert (E : getWindDirection (Num d) = None).
  { rewrite getWindDirection_rounded.
    set (r := round_half_up (d / (45 # 2))).
    assert (Hr : -15 <= r <= -1).
    { unfold r, round_half_up, Qdiv. change (/ (45 # 2))%Q with (2 # 45)%Q.
      pose proof (Qfloor_le (d * (2 # 45) + (1 # 2))) as F1.
      pose proof (Qlt_floor (d * (2 # 45) + (1 # 2))) as F2.
      rewrite inject_Z_plus in F2. change (inject_Z 1) with 1%Q in F2.
      set (f := Qfloor (d * (2 # 45) + (1 # 2))) in *.
      assert (A : (inject_Z f < inject_Z 0)%Q).
      { change (inject_Z 0) with 0%Q. lra. }
      assert (B : (inject_Z (-16) < inject_Z f)%Q).
      { change (inject_Z (-16)) with (- (16 # 1))%Q. lra. }
      rewrite <- Zlt_Qlt in A, B. lia. }
    unfold index.
    destruct (Z.ltb_spec (Z.rem r 16) 0) as [L | L]; [reflexivity |].
    exfalso. revert L. Z.to_euclidean_division_equations. lia. }
  rewrite E. split; reflexivity.
Qed.

Lemma X8_negative_bearing_undefined_witness :
  getWindDirection (Num (- (30 # 1))) = None.
Proof.
  apply (X8_negative_bearing_undefined (- (30 # 1)));
    [discriminate | reflexivity].
Defined.

(** X9: the wind direction of a period is taken from the plain mean of the
    bearings: over a slice of two hours whose bearings are [a] and
    [360 - a] degrees the summary says S, whatever [a] is (also for 10 and
    350 degrees, both about north). *)
Theorem X9_mean_bearing_of_opposites
    (h : Hourly.T) (period : Period) (startIdx endIdx : Z) (a : Q) :
  slice (Hourly.wind_direction_10m h) startIdx endIdx
  = [Num a; Num (360 - a)] ->
  exists avgWind maxGust,
    PeriodForecast.wind (summary h period startIdx endIdx)
    = avgWind ++ " kt S (Gusts " ++ maxGust ++ " kt)".
Proof.
  intros Hs. unfold summary. cbn [PeriodForecast.wind]. rewrite Hs.
  change [Num a; Num (360 - a)] with (map Num [a; (360 - a)%Q]).
  rewrite average_Num by discriminate.
  rewrite (compass_sector (mean [a; (360 - a)%Q]) 8).
  - do 2 eexists. reflexivity.
  - lia.
  - unfold mean, Qdiv. cbn [fold_left List.length].
    change (/ inject_Z (Z.of_nat 2))%Q with (1 # 2)%Q.
    change (inject_Z 8) with 8%Q. lra.
  - unfold mean, Qdiv. cbn [fold_left List.length].
    change (/ inject_Z (Z.of_nat 2))%Q with (1 # 2)%Q.
    change (inject_Z 8) with 8%Q. lra.
Qed.

Lemma X9_mean_bearing_of_opposites_witness :
  let h := Hourly.mk (repeat "" 168) (hours24 (fun _ => 50%Q))
             (hours24 (fun _ => 0%Q)) (hours24 (fun _ => 0%Q))
             (hours24 (fun _ => 16000%Q)) (hours24 (fun _ => 12%Q))
             (hours24 (fun i => if i =? 0 then 10 else 350)%Q)
             (hours24 (fun _ => 20%Q)) in
  PeriodForecast.wind (summary h morning 0 2) = "12 kt S (Gusts 20 kt)".
Proof.
  intro h.
  destruct (X9_mean_bearing_of_opposites h morning 0 2 10)
    as (avgWind & maxGust & E).
  - reflexivity.
  - reflexivity.
Defined.

(** *** Integers in template literals *)

Lemma Number_toString_of_Z (z : Z) :
  Z.abs z < ten21 -> Number_toString (of_Z z) = Z_to_string z.
Proof.
  intros Hz. unfold Number_toString, of_Z, Z_to_string.
  change (Qabs (inject_Z z)) with (inject_Z (Z.abs z)).
  change (Qfloor (inject_Z (Z.abs z))) with (Z.abs z / 1).
  rewrite Z.div_1_r.
  destruct (Z.leb_spec ten21 (Z.abs z)) as [L | L]; [lia |].
  change (Qnum (inject_Z (Z.abs z))) with (Z.abs z).
  change (N.pos (Qden (inject_Z (Z.abs z)))) with 1%N.
  rewrite N.mod_1_r. cbn [N.eqb]. rewrite append_empty.
  change (is_neg (inject_Z z)) with (z <? 0).
  destruct (z <? 0); reflexivity.
Qed.

(** *** What is shown *)

Lemma tides_nil_iff (tide : Fetched TideData) :
  tides tide = [] <-> tide_unavailable tide.
Proof.
  split; [| apply tides_unavailable].
  destruct tide as [m | status [m | [[[| p ps] |]]]]; cbn; auto.
  intros H. exfalso.
  change (tides (Responded status
                   (inr (mkTideData (Some (p :: ps))))) = []) in H.
  rewrite tides_of_predictions in H. discriminate H.
Qed.

(** X12: the tide panel of a report says that tide data is unavailable
    exactly when the tide request failed, its body did not parse, or the
    body has no or an empty prediction list; otherwise it shows the cards
    of the normalised events. *)
Theorem X12_tide_panel now weather tide water r :
  forecastObj now weather tide water = Ok r ->
  (tidePanel r = TideUnavailable <-> tide_unavailable tide)
  /\ (~ tide_unavailable tide -> tidePanel r = TideCards (tides tide)).
Proof.
  intros H. destruct (forecastObj_fields _ _ _ _ _ H) as (Ht & _).
  unfold tidePanel. rewrite Ht, <- tides_nil_iff.
  destruct (tides tide) as [| x l]; cbn.
  - split; [tauto | congruence].
  - split; [| reflexivity]. split; discriminate.
Qed.

Lemma X12_tide_panel_witness :
  exists r,
    forecastObj sampleNow (Responded 200 (inr sampleWeather))
      (Responded 200 (inr (mkTideData None))) sampleWater = Ok r
    /\ tidePanel r = TideUnavailable.
Proof.
  destruct (forecastObj_usable sampleNow (Responded 200 (inr sampleWeather))
              (Responded 200 (inr (mkTideData None))) sampleWater eq_refl)
    as [r E].
  exists r. split; [exact E |].
  apply (X12_tide_panel _ _ _ _ _ E). left. reflexivity.
Defined.

Lemma append_cons_nonempty (c : ascii) (a b : string) :
  String c a ++ b <> "".
Proof.
  cbn [append]. discriminate.
Qed.

(** X13: what the component shows after a run depends on that run alone.
    A run that gives a report shows the report, also after an earlier
    error; a run that fails with a message shows the error page with that
    message, also when an earlier report is stored; the messages the code
    itself throws (a status that is not OK, a missing section) are never
    empty.  Only an error with an empty message leaves the page to the
    stored report, if any. *)
Theorem X13_page_after_a_run now weather tide water (st : State) :
  (forall r, forecastObj now weather tide water = Ok r ->
     render (fetchForecast now weather tide water st) = ForecastPage r)
  /\ (forall m, forecastObj now weather tide water = Throw m -> m <> "" ->
        render (fetchForecast now weather tide water st) = ErrorPage m)
  /\ (forecastObj now weather tide water = Throw "" ->
        render (fetchForecast now weather tide water st)
        = match forecast st with
          | Some f => ForecastPage f
          | None => NoPage
          end)
  /\ (forall status body m,
        weather = Responded status body ->
        (ok status = false \/ exists w, body = inr w) ->
        forecastObj now weather tide water = Throw m -> m <> "").
Proof.
  unfold fetchForecast, render.
  split; [| split; [| split]].
  - intros r ->. reflexivity.
  - intros m -> Hm. cbn [loading error forecast]. unfold truthy.
    destruct (String.eqb_spec m ""); [contradiction | reflexivity].
  - intros ->. reflexivity.
  - intros status body m -> Hb H.
    destruct (forecastObj_throw _ _ _ _ _ H) as [E | [prop ->]];
      [| apply append_cons_nonempty].
    unfold weatherData in E. destruct (ok status); cbn [negb] in E.
    + destruct Hb as [Hb | [w ->]]; discriminate.
    + assert (E' : "Weather API returned " ++ Number_toString (of_Z status)
                   = m) by congruence.
      rewrite <- E'. apply append_cons_nonempty.
Qed.

Lemma X13_page_after_a_run_witness :
  exists r,
    render (fetchForecast sampleNow (Responded 503 (inr sampleWeather))
              sampleTide sampleWater (mkState (Some r) false None))
    = ErrorPage "Weather API returned 503".
Proof.
  destruct (forecastObj_usable sampleNow (Responded 200 (inr sampleWeather))
              sampleTide sampleWater eq_refl) as [r _].
  exists r.
  destruct (X13_page_after_a_run sampleNow
              (Responded 503 (inr sampleWeather)) sampleTide sampleWater
              (mkState (Some r) false None)) as (_ & H & _).
  apply H; [vm_compute; reflexivity | discriminate].
Defined.

(** *** The console trace *)

Lemma last_app_cons {A} (l l' : list A) (x d : A) :
  last (l ++ x :: l') d = last (x :: l') d.
Proof.
  induction l as [| a l IH]; [reflexivity |].
  rewrite <- IH. simpl.
  destruct (l ++ x :: l')%list as [| a0 l0] eqn:E.
  - destruct l; discriminate E.
  - reflexivity.
Qed.

Lemma last_trace {A} (a b c d e f dflt : A) (l1 l2 rest : list A) :
  last (a :: b :: c :: d :: l1 ++ e :: l2 ++ f :: rest) dflt
  = last (f :: rest) dflt.
Proof.
  change (a :: b :: c :: d :: l1 ++ e :: l2 ++ f :: rest)%list
    with ((a :: b :: c :: d :: l1) ++ e :: l2 ++ f :: rest)%list.
  rewrite last_app_cons.
  change (e :: l2 ++ f :: rest)%list with ((e :: l2) ++ f :: rest)%list.
  apply last_app_cons.
Qed.

Lemma tideLog_prefixes (tide : Fetched TideData) :
  Forall (fun x => prefix "ER" x = false /\ prefix "Fo" x = false)
    (tideLog tide).
Proof.
  unfold tideLog.
  destruct (fetch_json tide) as [d | m];
    [destruct (predictions d) |]; repeat constructor.
Qed.

Lemma waterLog_prefixes (water : Fetched WaterTempData) :
  Forall (fun x => prefix "ER" x = false /\ prefix "Fo" x = false)
    (waterLog water).
Proof.
  unfold waterLog.
  destruct (fetch_json water) as [d | m];
    [destruct (data d) as [[| r l] |] |]; repeat constructor.
Qed.

Lemma Forall_fst {A} (P Q : A -> Prop) (l : list A) :
  Forall (fun x => P x /\ Q x) l -> Forall P l /\ Forall Q l.
Proof.
  intros H. split; eapply Forall_impl; try exact H; cbv beta; tauto.
Qed.

Ltac trace_shape :=
  split;
  [ repeat (first [ apply Forall_cons; [reflexivity |]
                  | apply Forall_app; split; [assumption |]
                  | apply Forall_nil ])
  | rewrite last_trace; reflexivity ].

Lemma consoleLog_ok now weather tide water r :
  forecastObj now weather tide water = Ok r ->
  Forall (fun x => prefix "ER" x = false) (consoleLog now weather tide water)
  /\ last (consoleLog now weather tide water) "" = "Forecast complete!".
Proof.
  unfold forecastObj, consoleLog, bind, section.
  destruct (weatherData weather) as [w | m0]; [| discriminate].
  destruct (hourly w) as [h |]; [| discriminate].
  destruct (periodForecastsOf h (getHours now)); [| discriminate].
  destruct (current w); [| discriminate].
  destruct (daily w) as [d |]; [| discriminate].
  destruct (sunTimeOf (Daily.sunrise d)); [| discriminate].
  destruct (sunTimeOf (Daily.sunset d)); [| discriminate].
  intros _.
  destruct (Forall_fst _ _ _ (tideLog_prefixes tide)) as [Ht _].
  destruct (Forall_fst _ _ _ (waterLog_prefixes water)) as [Hw _].
  trace_shape.
Qed.

Lemma consoleLog_throw now weather tide water m :
  forecastObj now weather tide water = Throw m ->
  Forall (fun x => prefix "Fo" x = false) (consoleLog now weather tide water)
  /\ last (consoleLog now weather tide water) "" = "ERROR: " ++ m.
Proof.
  unfold forecastObj, consoleLog, bind, section.
  destruct (Forall_fst _ _ _ (tideLog_prefixes tide)) as [_ Ht].
  destruct (Forall_fst _ _ _ (waterLog_prefixes water)) as [_ Hw].
  destruct (weatherData weather) as [w | m0].
  - destruct (hourly w) as [h |];
      [destruct (periodForecastsOf h (getHours now));
       [destruct (current w);
        [destruct (daily w) as [d |];
         [destruct (sunTimeOf (Daily.sunrise d));
          [destruct (sunTimeOf (Daily.sunset d)); [discriminate |] |] |] |]
       |] |];
      intros E;
      match type of E with
      | Throw ?m0 = Throw _ =>
          assert (E' : m0 = m) by congruence; rewrite <- E'
      end;
      trace_shape.
  - intros E. assert (E' : m0 = m) by congruence. rewrite <- E'.
    split; [repeat constructor | reflexivity].
Qed.

(** X14: the console trace of a run tells its outcome: a run that gives a
    report ends its trace with "Forecast complete!" and logs no ERROR line;
    a run that fails ends its trace with "ERROR: " and the message shown on
    the error page and never logs "Forecast complete!"; a failed tide
    request is logged as "Tide fetch failed: " with its message whenever
    the weather payload arrived. *)
Theorem X14_console_trace now weather tide water :
  (forall r, forecastObj now weather tide water = Ok r ->
     last (consoleLog now weather tide water) "" = "Forecast complete!"
     /\ forall m, ~ In ("ERROR: " ++ m) (consoleLog now weather tide water))
  /\ (forall m, forecastObj now weather tide water = Throw m ->
        last (consoleLog now weather tide water) "" = "ERROR: " ++ m
        /\ ~ In "Forecast complete!" (consoleLog now weather tide water))
  /\ (forall w m, weatherData weather = Ok w -> fetch_json tide = Throw m ->
        In ("Tide fetch failed: " ++ m) (consoleLog now weather tide water)).
Proof.
  split; [| split].
  - intros r H. destruct (consoleLog_ok _ _ _ _ _ H) as [F L].
    split; [exact L |]. intros m Hin.
    rewrite Forall_forall in F. specialize (F _ Hin). discriminate F.
  - intros m H. destruct (consoleLog_throw _ _ _ _ _ H) as [F L].
    split; [exact L |]. intros Hin.
    rewrite Forall_forall in F. specialize (F _ Hin). discriminate F.
  - intros w m Hw Ht. unfold consoleLog, tideLog. rewrite Hw, Ht.
    do 4 right. apply in_or_app. left. left. reflexivity.
Qed.

Lemma X14_console_trace_witness :
  last (consoleLog sampleNow (Responded 503 (inr sampleWeather)) sampleTide
          sampleWater) ""
  = "ERROR: Weather API returned 503"
  /\ last (consoleLog sampleNow (Responded 200 (inr sampleWeather))
             (Rejected "Failed to fetch") sampleWater) ""
     = "Forecast complete!".
Proof.
  split.
  - destruct (X14_console_trace sampleNow (Responded 503 (inr sampleWeather))
                sampleTide sampleWater) as (_ & H & _).
    apply (H "Weather API returned 503"). vm_compute. reflexivity.
  - destruct (forecastObj_usable sampleNow
                (Responded 200 (inr sampleWeather))
                (Rejected "Failed to fetch") sampleWater eq_refl) as [r E].
    destruct (X14_console_trace sampleNow (Responded 200 (inr sampleWeather))
                (Rejected "Failed to fetch") sampleWater) as (H & _).
    apply (H r E).
Defined.

(** *** The dates of the tide request *)

Lemma civil_from_days_ranges (z : Z) :
  let '(y, m, d) := civil_from_days z in 1 <= m <= 12 /\ 1 <= d <= 31.
Proof.
  unfold civil_from_days.
  set (z' := z + 719468).
  set (era := z' / 146097).
  set (doe := z' - era * 146097).
  assert (Hdoe : 0 <= doe < 146097).
  { subst doe era. Z.to_euclidean_division_equations. lia. }
  clearbody doe. clear z' era.
  set (yoe := (doe - doe / 1460 + doe / 36524 - doe / 146096) / 365).
  set (doy := doe - (365 * yoe + yoe / 4 - yoe / 100)).
  assert (Hdoy : 0 <= doy <= 365 /\ 0 <= yoe <= 399).
  { subst doy yoe. Z.to_euclidean_division_equations. lia. }
  clearbody doy.
  set (mp := (5 * doy + 2) / 153).
  assert (0 <= mp <= 11 /\ 1 <= doy - (153 * mp + 2) / 5 + 1 <= 31).
  { subst mp. Z.to_euclidean_division_equations. lia. }
  destruct (mp <? 10) eqn:E; lia.
Qed.

(** The two calendar conversions are inverse to each other on day numbers. *)
Lemma days_from_civil_from_days (z : Z) :
  let '(y, m, d) := civil_from_days z in days_from_civil y m d = z.
Proof.
  unfold civil_from_days.
  set (z' := z + 719468).
  set (era := z' / 146097).
  set (doe := z' - era * 146097).
  assert (Hdoe : 0 <= doe < 146097).
  { subst doe era. Z.to_euclidean_division_equations. lia. }
  assert (Hz : z = era * 146097 + doe - 719468) by (subst doe z'; lia).
  clearbody doe era. clear z'. subst z.
  set (yoe := (doe - doe / 1460 + doe / 36524 - doe / 146096) / 365).
  set (doy := doe - (365 * yoe + yoe / 4 - yoe / 100)).
  assert (Hdoy : 0 <= doy <= 365 /\ 0 <= yoe <= 399).
  { subst doy yoe. Z.to_euclidean_division_equations. lia. }
  assert (Hdoe' : doe = 365 * yoe + yoe / 4 - yoe / 100 + doy)
    by (subst doy; lia).
  clearbody doy yoe. subst doe.
  set (mp := (5 * doy + 2) / 153).
  assert (Hmp : 0 <= mp <= 11).
  { subst mp. Z.to_euclidean_division_equations. lia. }
  assert (Hera : (yoe + era * 400) / 400 = era).
  { Z.to_euclidean_division_equations. lia. }
  unfold days_from_civil.
  destruct (mp <? 10) eqn:E.
  - assert (E1 : (mp + 3 <=? 2) = false) by lia.
    assert (E2 : (2 <? mp + 3) = true) by lia.
    rewrite E1, E2.
    replace (yoe + era * 400 + 0) with (yoe + era * 400) by lia.
    replace (mp + 3 - 3) with mp by lia.
    rewrite Hera.
    replace (yoe + era * 400 - era * 400) with yoe by lia. lia.
  - assert (E1 : (mp - 9 <=? 2) = true) by lia.
    assert (E2 : (2 <? mp - 9) = false) by lia.
    rewrite E1, E2.
    replace (yoe + era * 400 + 1 - 1) with (yoe + era * 400) by lia.
    replace (mp - 9 + 9) with mp by lia.
    rewrite Hera.
    replace (yoe + era * 400 - era * 400) with yoe by lia. lia.
Qed.

Lemma year_digits (y : Z) :
  1000 <= y <= 9999 -> String.length (N_to_string (Z.to_N y)) = 4%nat.
Proof.
  intros Hy.
  assert (H : ((y <? 1000)
               || (String.length (N_to_string (Z.to_N y)) =? 4)%nat) = true).
  { apply (Z_range_forallb
             (fun y => (y <? 1000)
                       || (String.length (N_to_string (Z.to_N y)) =? 4)%nat)
             (Z.to_nat 10000));
      [vm_compute; reflexivity | rewrite Z2Nat.id; lia]. }
  destruct (Z.ltb_spec y 1000); [lia |].
  apply Nat.eqb_eq. exact H.
Qed.

Lemma two_digits (n : Z) :
  0 <= n <= 99 ->
  let s := padStart0 2 (N_to_string (Z.to_N n)) in
  String.length s = 2%nat /\ digits_only s = true
  /\ digits_value s = Z.to_N n.
Proof.
  intros Hn s.
  assert (H : ((String.length s =? 2)%nat && digits_only s
               && (digits_value s =? Z.to_N n)%N) = true).
  { apply (Z_range_forallb
             (fun n =>
                let s := padStart0 2 (N_to_string (Z.to_N n)) in
                (String.length s =? 2)%nat && digits_only s
                && (digits_value s =? Z.to_N n)%N) 100);
      [vm_compute; reflexivity | lia]. }
  apply andb_prop in H. destruct H as [H H3].
  apply andb_prop in H. destruct H as [H1 H2].
  apply Nat.eqb_eq in H1. apply N.eqb_eq in H3. auto.
Qed.

Lemma substring_app_l (a r : string) :
  substring 0 (String.length a) (a ++ r) = a.
Proof.
  induction a as [| c a IH]; cbn [String.length append substring].
  - apply substring_none.
  - rewrite IH. reflexivity.
Qed.

Lemma substring_app_r (a r : string) (n k : nat) :
  substring (String.length a + n) k (a ++ r) = substring n k r.
Proof.
  induction a as [| c a IH]; [reflexivity |].
  cbn [String.length append Nat.add substring]. exact IH.
Qed.

Lemma field_of_digits (s : string) (start len : nat) (f : string) :
  substring start len s = f -> digits_only f = true ->
  String.length f = len ->
  field s start len = Some (Z.of_N (digits_value f)).
Proof.
  intros <- Hd Hl. unfold field, all_digits.
  rewrite (span_digits_all _ Hd), Hl, Nat.eqb_refl. reflexivity.
Qed.

Lemma formatDate_decodes (d : DateTime) :
  1000 <= getFullYear d <= 9999 ->
  String.length (formatDate d) = 8%nat
  /\ digits_only (formatDate d) = true
  /\ decodeDate (formatDate d) = Some (day d).
Proof.
  unfold formatDate, getFullYear, getMonth, getDate.
  pose proof (civil_from_days_ranges (day d)) as R.
  pose proof (days_from_civil_from_days (day d)) as I.
  destruct (civil_from_days (day d)) as [[y m] dom].
  destruct R as [Rm Rd]. intros Hy.
  replace (m - 1 + 1) with m by lia.
  rewrite !Number_toString_of_Z by (unfold ten21; lia).
  unfold Z_to_string.
  destruct (Z.ltb_spec y 0); [lia |].
  destruct (Z.ltb_spec m 0); [lia |].
  destruct (Z.ltb_spec dom 0); [lia |].
  cbn [append]. rewrite !Z.abs_eq by lia.
  pose proof (year_digits y Hy) as Ly.
  pose proof (digits_only_N (Z.to_N y)) as Dy.
  pose proof (digits_value_N (Z.to_N y)) as Vy.
  destruct (two_digits m ltac:(lia)) as (Lm & Dm & Vm).
  destruct (two_digits dom ltac:(lia)) as (Ld & Dd & Vd).
  set (a := N_to_string (Z.to_N y)) in *.
  set (b := padStart0 2 (N_to_string (Z.to_N m))) in *.
  set (c := padStart0 2 (N_to_string (Z.to_N dom))) in *.
  split; [rewrite !append_length; lia |].
  split; [rewrite !digits_only_app, Dy, Dm, Dd; reflexivity |].
  unfold decodeDate.
  assert (Fa : substring 0 4 (a ++ b ++ c) = a).
  { rewrite <- Ly. apply substring_app_l. }
  assert (Fb : substring 4 2 (a ++ b ++ c) = b).
  { replace 4%nat with (String.length a + 0)%nat by lia.
    rewrite substring_app_r, <- Lm. apply substring_app_l. }
  assert (Fc : substring 6 2 (a ++ b ++ c) = c).
  { replace 6%nat with (String.length a + (String.length b + 0))%nat by lia.
    rewrite !substring_app_r, <- Ld. apply substring_all. }
  rewrite (field_of_digits _ 0 4 a Fa Dy Ly).
  rewrite (field_of_digits _ 4 2 b Fb Dm Lm).
  rewrite (field_of_digits _ 6 2 c Fc Dd Ld).
  rewrite Vy, Vm, Vd, !Z2N.id by lia.
  destruct (Z.leb_spec 1 m); [| lia].
  destruct (Z.leb_spec m 12); [| lia].
  destruct (Z.leb_spec 1 dom); [| lia].
  destruct (Z.leb_spec dom 31); [| lia].
  cbn [andb]. rewrite I. reflexivity.
Qed.

(** X15: for a date whose year has four digits, [formatDate] writes eight
    digits, the year, the month from 01 to 12 and the day of the month from
    01 to 31, and reading these three numbers back as a calendar date gives
    the day of the date again. *)
Theorem X15_formatDate_round_trip (d : DateTime) :
  1000 <= getFullYear d <= 9999 ->
  String.length (formatDate d) = 8%nat
  /\ digits_only (formatDate d) = true
  /\ decodeDate (formatDate d) = Some (day d).
Proof.
  exact (formatDate_decodes d).
Qed.

Lemma X15_formatDate_round_trip_witness :
  formatDate sampleNow = "20261101"
  /\ decodeDate (formatDate sampleNow) = Some (day sampleNow).
Proof.
  split; [reflexivity |].
  apply (X15_formatDate_round_trip sampleNow).
  vm_compute. split; discriminate.
Defined.

(** X16: the tide request asks for the calendar day the shift starts on
    and for the day after it: its two dates stand for [shiftStart]'s day
    and that day plus one (before 08:00, yesterday and today). *)
Theorem X16_tide_request_days (now : DateTime) :
  1000 <= getFullYear (shiftStart now) <= 9999 ->
  1000 <= getFullYear (shiftEnd now) <= 9999 ->
  decodeDate (today now) = Some (day (shiftStart now))
  /\ decodeDate (tomorrow now) = Some (day (shiftStart now) + 1)
  /\ day (shiftStart now) = (if getHours now <? 8 then day now - 1 else day now).
Proof.
  intros H1 H2. unfold today, tomorrow.
  destruct (formatDate_decodes _ H1) as (_ & _ & ->).
  destruct (formatDate_decodes _ H2) as (_ & _ & ->).
  split; [reflexivity | split; [reflexivity |]].
  unfold shiftStart, getHours, setHours, addDays.
  destruct (hours now <? 8); cbn [day]; lia.
Qed.

Lemma X16_tide_request_days_witness :
  let now := mkDateTime 20758 3 15 0 0 in
  today now = "20261031" /\ tomorrow now = "20261101"
  /\ decodeDate (tomorrow now) = Some (day now).
Proof.
  intro now. split; [reflexivity | split; [reflexivity |]].
  destruct (X16_tide_request_days now) as (_ & H & _).
  - vm_compute. split; discriminate.
  - vm_compute. split; discriminate.
  - rewrite H. reflexivity.
Defined.

(** *** Unit conversions *)

Lemma digits_value_leading_zeros (k : nat) (s : string) :
  digits_value (repeat0 k ++ s) = digits_value s.
Proof.
  induction k as [| k IH]; [reflexivity |].
  rewrite <- IH. cbn [repeat0 append]. unfold digits_value.
  cbn [NilEmpty.uint_of_string].
  destruct (NilEmpty.uint_of_string (repeat0 k ++ s)); reflexivity.
Qed.

Lemma substring_split (s : string) (k : nat) :
  (k <= String.length s)%nat ->
  substring 0 k s ++ substring k (String.length s - k) s = s.
Proof.
  revert k. induction s as [| c s IH]; intros k Hk.
  - destruct k; [reflexivity | simpl in Hk; lia].
  - destruct k as [| k].
    + cbn [substring String.length Nat.sub append].
      rewrite substring_all. reflexivity.
    + cbn [substring String.length Nat.sub append].
      rewrite IH by (simpl in Hk; lia). reflexivity.
Qed.

(** The digits of [x.toFixed(f)] are those of [|x| * 10^f] rounded to the
    nearest integer, the last [f] of them after the point. *)
Lemma toFixed_digits (f : nat) (q : Q) :
  Qfloor (Qabs q) < ten21 ->
  exists ip fp,
    toFixed f (Num q)
    = (if is_neg q then "-" else "")
        ++ ip ++ (if Nat.eqb f 0 then "" else "." ++ fp)
    /\ digits_only (ip ++ fp) = true /\ (1 <= String.length ip)%nat
    /\ String.length fp = f
    /\ Z.of_N (digits_value (ip ++ fp))
       = Qfloor (Qabs q * inject_Z (10 ^ Z.of_nat f) + (1 # 2)).
Proof.
  intros Hq. unfold toFixed.
  destruct (ten21 <=? Qfloor (Qabs q)) eqn:E; [apply Z.leb_le in E; lia |].
  set (x := (Qabs q * inject_Z (10 ^ Z.of_nat f) + (1 # 2))%Q).
  set (ds := repeat0 (S f - String.length (N_to_string (Z.to_N (Qfloor x))))
               ++ N_to_string (Z.to_N (Qfloor x))).
  assert (Hd : digits_only ds = true).
  { unfold ds. rewrite digits_only_app, digits_only_repeat0, digits_only_N.
    reflexivity. }
  assert (Hl : (S f <= String.length ds)%nat).
  { unfold ds. rewrite append_length, repeat0_length.
    pose proof (N_to_string_length (Z.to_N (Qfloor x))). lia. }
  assert (Hx : 0 <= Qfloor x).
  { apply Qfloor_nonneg. unfold x.
    pose proof (Qabs_nonneg q) as A.
    assert (P : (0 <= inject_Z (10 ^ Z.of_nat f))%Q).
    { change 0%Q with (inject_Z 0). rewrite <- Zle_Qle.
      apply Z.pow_nonneg. lia. }
    pose proof (Qmult_le_0_compat _ _ A P). lra. }
  unfold split_last.
  exists (substring 0 (String.length ds - f) ds),
    (substring (String.length ds - f) f ds).
  assert (Hs : substring 0 (String.length ds - f) ds
               ++ substring (String.length ds - f) f ds = ds).
  { pose proof (substring_split ds (String.length ds - f)) as S0.
    replace (String.length ds - (String.length ds - f))%nat with f in S0
      by lia.
    apply S0. lia. }
  split; [reflexivity |]. rewrite Hs, !substring_length.
  split; [exact Hd |]. split; [lia |]. split; [lia |].
  unfold ds. rewrite digits_value_leading_zeros, digits_value_N.
  apply Z2N.id, Hx.
Qed.

Lemma toFixed_nonneg (f : nat) (x : Q) :
  (0 <= x)%Q -> (x < inject_Z (10 ^ 20))%Q ->
  exists ip fp,
    toFixed f (Num x) = ip ++ (if Nat.eqb f 0 then "" else "." ++ fp)
    /\ digits_only (ip ++ fp) = true /\ (1 <= String.length ip)%nat
    /\ String.length fp = f
    /\ Z.of_N (digits_value (ip ++ fp))
       = Qfloor (x * inject_Z (10 ^ Z.of_nat f) + (1 # 2)).
Proof.
  intros Hx Hb.
  assert (Habs : (Qabs x == x)%Q) by (apply Qabs_pos, Hx).
  assert (Hneg : is_neg x = false).
  { destruct (is_neg x) eqn:E; [| reflexivity].
    apply is_neg_spec in E. lra. }
  destruct (toFixed_digits f x) as (ip & fp & E & D & L & Lf & V).
  { rewrite (Qfloor_comp _ _ Habs).
    assert (B : (inject_Z (Qfloor x) < inject_Z (10 ^ 20))%Q).
    { apply Qle_lt_trans with x; [apply Qfloor_le | exact Hb]. }
    rewrite <- Zlt_Qlt in B. unfold ten21. lia. }
  exists ip, fp. rewrite E, Hneg. cbn [append].
  split; [reflexivity |]. split; [exact D |]. split; [exact L |].
  split; [exact Lf |]. rewrite V. apply Qfloor_comp. rewrite Habs.
  reflexivity.
Qed.

Lemma scaled_monotone (x y k : Q) :
  (0 <= k)%Q -> (x <= y)%Q ->
  Qfloor (x * k + (1 # 2)) <= Qfloor (y * k + (1 # 2)).
Proof.
  intros Hk Hxy. apply Qfloor_resp_le.
  apply Qplus_le_l. apply Qmult_le_compat_r; assumption.
Qed.

Lemma pow10_nonneg (f : nat) : (0 <= inject_Z (10 ^ Z.of_nat f))%Q.
Proof.
  change 0%Q with (inject_Z 0). rewrite <- Zle_Qle.
  apply Z.pow_nonneg. lia.
Qed.

Lemma rounded_near (x k : Q) (n : Z) :
  n = Qfloor (x * k + (1 # 2)) ->
  (x * k - (1 # 2) <= inject_Z n)%Q /\ (inject_Z n <= x * k + (1 # 2))%Q.
Proof.
  intros ->. split.
  - pose proof (Qlt_floor (x * k + (1 # 2))) as H.
    rewrite inject_Z_plus in H. change (inject_Z 1) with 1%Q in H. lra.
  - apply Qfloor_le.
Qed.

(** X17: a visibility from 0 to below 10^9 metres is printed in miles as
    digits, a point and one decimal, within 0.06 of the metres divided by
    1609.34, and a sea-level pressure from 0 to below 10^6 hPa in inches of
    mercury with two decimals, within 0.006 of the hPa divided by 33.864;
    and of two such quantities the larger never prints as the smaller
    number. *)
Theorem X17_unit_conversions :
  (forall m1 m2 : Q,
      (0 <= m1)%Q -> (m1 <= m2)%Q -> (m2 < inject_Z (10 ^ 9))%Q ->
      exists ip1 d1 ip2 d2,
        metersToMiles (Num m1) = ip1 ++ "." ++ String d1 ""
        /\ metersToMiles (Num m2) = ip2 ++ "." ++ String d2 ""
        /\ digits_only (ip1 ++ String d1 "") = true
        /\ digits_only (ip2 ++ String d2 "") = true
        /\ (1 <= String.length ip1)%nat /\ (1 <= String.length ip2)%nat
        /\ (Qabs (inject_Z (Z.of_N (digits_value (ip1 ++ String d1 "")))
                  * (1 # 10) - m1 / (160934 # 100)) <= 6 # 100)%Q
        /\ (digits_value (ip1 ++ String d1 "")
            <= digits_value (ip2 ++ String d2 ""))%N)
  /\ (forall (c1 c2 : Current.T) (p1 p2 : Q),
        Current.pressure_msl c1 = Num p1 ->
        Current.pressure_msl c2 = Num p2 ->
        (0 <= p1)%Q -> (p1 <= p2)%Q -> (p2 < inject_Z (10 ^ 6))%Q ->
        exists ip1 fp1 ip2 fp2,
          CurrentConditions.pressure (currentConditions c1)
          = ip1 ++ "." ++ fp1 ++ " inHg"
          /\ CurrentConditions.pressure (currentConditions c2)
             = ip2 ++ "." ++ fp2 ++ " inHg"
          /\ digits_only (ip1 ++ fp1) = true
          /\ digits_only (ip2 ++ fp2) = true
          /\ (1 <= String.length ip1)%nat /\ (1 <= String.length ip2)%nat
          /\ String.length fp1 = 2%nat /\ String.length fp2 = 2%nat
          /\ (Qabs (inject_Z (Z.of_N (digits_value (ip1 ++ fp1))) * (1 # 100)
                    - p1 / (33864 # 1000)) <= 6 # 1000)%Q
          /\ (digits_value (ip1 ++ fp1) <= digits_value (ip2 ++ fp2))%N).
Proof.
  assert (S : forall (k a b : Q) (e : Z),
            (0 < k)%Q -> (k <= 1)%Q -> 10 ^ e <= 10 ^ 20 ->
            (0 <= a)%Q -> (a <= b)%Q -> (b < inject_Z (10 ^ e))%Q ->
            (0 <= a * k)%Q /\ (a * k <= b * k)%Q
            /\ (b * k < inject_Z (10 ^ 20))%Q).
  { intros k a b e K0 K1 He A AB B.
    assert (Hb : (0 <= b)%Q) by lra.
    split; [apply Qmult_le_0_compat; lra |].
    split; [apply Qmult_le_compat_r; lra |].
    apply Qle_lt_trans with b.
    - rewrite <- (Qmult_1_r b) at 2.
      rewrite !(Qmult_comm b). apply Qmult_le_compat_r; lra.
    - apply Qlt_le_trans with (inject_Z (10 ^ e)); [exact B |].
      rewrite <- Zle_Qle. exact He. }
  split.
  - intros m1 m2 H1 H12 H2.
    destruct (S (100 # 160934)%Q m1 m2 9) as (X1 & X12 & X2);
      [reflexivity | discriminate | lia | assumption | assumption
      | assumption |].
    destruct (toFixed_nonneg 1 _ X1 (Qle_lt_trans _ _ _ X12 X2))
      as (ip1 & fp1 & E1 & D1 & L1 & Lf1 & V1).
    destruct (toFixed_nonneg 1 _ (Qle_trans _ _ _ X1 X12) X2)
      as (ip2 & fp2 & E2 & D2 & L2 & Lf2 & V2).
    destruct fp1 as [| d1 [| d1' fp1]]; try discriminate Lf1.
    destruct fp2 as [| d2 [| d2' fp2]]; try discriminate Lf2.
    exists ip1, d1, ip2, d2. unfold metersToMiles.
    change (div (Num m1) (Num (160934 # 100)))
      with (Num (m1 * (100 # 160934))).
    change (div (Num m2) (Num (160934 # 100)))
      with (Num (m2 * (100 # 160934))).
    rewrite E1, E2. cbn [Nat.eqb].
    do 6 (split; [first [reflexivity | assumption] |]).
    split.
    + destruct (rounded_near _ _ _ V1) as [Lo Hi].
      change (inject_Z (10 ^ Z.of_nat 1)) with 10%Q in Lo, Hi.
      unfold Qdiv. change (/ (160934 # 100))%Q with (100 # 160934)%Q.
      apply Qabs_Qle_condition. split; lra.
    + apply N2Z.inj_le. rewrite V1, V2.
      apply scaled_monotone; [apply pow10_nonneg | exact X12].
  - intros c1 c2 p1 p2 Ep1 Ep2 H1 H12 H2.
    destruct (S (1000 # 33864)%Q p1 p2 6) as (X1 & X12 & X2);
      [reflexivity | discriminate | lia | assumption | assumption
      | assumption |].
    destruct (toFixed_nonneg 2 _ X1 (Qle_lt_trans _ _ _ X12 X2))
      as (ip1 & fp1 & E1 & D1 & L1 & Lf1 & V1).
    destruct (toFixed_nonneg 2 _ (Qle_trans _ _ _ X1 X12) X2)
      as (ip2 & fp2 & E2 & D2 & L2 & Lf2 & V2).
    exists ip1, fp1, ip2, fp2. unfold currentConditions.
    cbn [CurrentConditions.pressure]. rewrite Ep1, Ep2.
    change (div (Num p1) (Num (33864 # 1000)))
      with (Num (p1 * (1000 # 33864))).
    change (div (Num p2) (Num (33864 # 1000)))
      with (Num (p2 * (1000 # 33864))).
    rewrite E1, E2. cbn [Nat.eqb].
    split; [rewrite !append_assoc; reflexivity |].
    split; [rewrite !append_assoc; reflexivity |].
    do 6 (split; [assumption |]).
    split.
    + destruct (rounded_near _ _ _ V1) as [Lo Hi].
      change (inject_Z (10 ^ Z.of_nat 2)) with 100%Q in Lo, Hi.
      unfold Qdiv. change (/ (33864 # 1000))%Q with (1000 # 33864)%Q.
      apply Qabs_Qle_condition. split; lra.
    + apply N2Z.inj_le. rewrite V1, V2.
      apply scaled_monotone; [apply pow10_nonneg | exact X12].
Qed.

(** 16000 m and 16100 m are shown as 9.9 and 10.0 miles. *)
Lemma X17_unit_conversions_witness :
  exists ip1 d1 ip2 d2,
    metersToMiles (Num 16000) = ip1 ++ "." ++ String d1 ""
    /\ metersToMiles (Num 16100) = ip2 ++ "." ++ String d2 ""
    /\ (digits_value (ip1 ++ String d1 "")
        <= digits_value (ip2 ++ String d2 ""))%N
    /\ metersToMiles (Num 16000) = "9.9"
    /\ metersToMiles (Num 16100) = "10.0".
Proof.
  destruct X17_unit_conversions as [H _].
  destruct (H 16000%Q 16100%Q)
    as (ip1 & d1 & ip2 & d2 & E1 & E2 & _ & _ & _ & _ & _ & V).
  - discriminate.
  - discriminate.
  - reflexivity.
  - exists ip1, d1, ip2, d2.
    split; [exact E1 | split; [exact E2 | split; [exact V |]]].
    split; vm_compute; reflexivity.
Defined.
